(** * ChatPage: the conversation / message lifecycle of the Pocket Guru client

    A shallow embedding of the [ChatPage] React component (the second
    module of [src/unnamed/part_004], routed by [frontend/src/App.js]),
    and of the pages around it.

    The component is modelled as one instance, for as long as the router
    renders it: its [useState] cells, what it reads from the router
    ([location.pathname], on which the identity of [navigate] depends, and
    the [conversationId] parameter of [useParams]), the item of local
    storage it reads, the notifications, and the promises it is still
    awaiting.  Every [async] handler is cut at its [await]: the part before
    it is a transition fired by a user event, the part after it is a
    transition fired when the request settles, and it runs with the
    variables the handler closed over when it was called.  React applies
    the state updates of one transition before the next event is handled,
    and the effects run with the state of the render that follows the
    transition.  The routes [/chat] and [/chat/:conversationId] render
    [<ChatPage />] at the same place, so a navigation between them keeps
    the instance and its state.

    The router itself (react-router-dom) is not part of the repository:
    what it makes of the path [/chat/${convId}] is a parameter of the
    model, carried by the state, and the theorems hold for every router. *)

From Stdlib Require Import String Ascii DecimalString NArith ZArith Bool Lia
  List.
Import ListNotations.

(** ** JavaScript strings *)

(** A JavaScript string is a sequence of UTF-16 code units. *)
Definition jsstring := list N.

Definition str (s : string) : jsstring :=
  map N_of_ascii (list_ascii_of_string s).

(** [`${n}`] for a non-negative integer [n]. *)
Definition decimal (n : N) : jsstring :=
  str (NilEmpty.string_of_uint (N.to_uint n)).

(** [a === b] on strings. *)
Fixpoint jseqb (a b : jsstring) : bool :=
  match a, b with
  | [], [] => true
  | x :: a', y :: b' => N.eqb x y && jseqb a' b'
  | _, _ => false
  end.

(** [a === b] where either side may be [null] / [undefined]. *)
Definition opt_eqb (a b : option jsstring) : bool :=
  match a, b with
  | Some x, Some y => jseqb x y
  | None, None => true
  | _, _ => false
  end.

(** The empty string is the only falsy string; [null] and [undefined]
    are falsy. *)
Definition truthy (s : jsstring) : bool :=
  match s with [] => false | _ :: _ => true end.

Definition truthy_opt (o : option jsstring) : bool :=
  match o with Some s => truthy s | None => false end.

Fixpoint starts_with (p s : jsstring) : bool :=
  match p, s with
  | [], _ => true
  | x :: p', y :: s' => N.eqb x y && starts_with p' s'
  | _ :: _, [] => false
  end.

(** ECMAScript WhiteSpace and LineTerminator code points: what
    [String.prototype.trim] strips. *)
Definition is_white_space (c : N) : bool :=
  (N.eqb c 9 || N.eqb c 10 || N.eqb c 11 || N.eqb c 12 || N.eqb c 13
   || N.eqb c 32 || N.eqb c 160 || N.eqb c 5760
   || (N.leb 8192 c && N.leb c 8202)
   || N.eqb c 8232 || N.eqb c 8233 || N.eqb c 8239 || N.eqb c 8287
   || N.eqb c 12288 || N.eqb c 65279)%bool.

Fixpoint trimStart (s : jsstring) : jsstring :=
  match s with
  | [] => []
  | c :: s' => if is_white_space c then trimStart s' else s
  end.

Definition trimEnd (s : jsstring) : jsstring := rev (trimStart (rev s)).

Definition trim (s : jsstring) : jsstring := trimEnd (trimStart s).

(** ** Data *)

(** [msg.shloka]: the scripture quote a guru message may carry. *)
Record Shloka := {
  sanskrit : jsstring;
  translation : jsstring;
  source : jsstring
}.

(** An element of [messages]: the optimistic entry built by
    [handleSendMessage] has exactly [id], [role], [content] and
    [timestamp]; entries sent by the server may carry a [shloka]. *)
Record Message := {
  id : jsstring;
  role : jsstring;
  content : jsstring;
  timestamp : jsstring;
  shloka : option Shloka
}.

(** An element of [conversations] (the sidebar list). *)
Record Conversation := {
  conv_id : jsstring;
  title : jsstring;
  updated_at : jsstring
}.

(** How an awaited request settles. *)
Inductive Promise (A : Type) : Type :=
| Fulfilled (data : A)
| Rejected (error : jsstring).
Arguments Fulfilled {A} data.
Arguments Rejected {A} error.

(** [response.data] of [POST /chat]. *)
Record ChatData := {
  conversation_id : jsstring;
  data_message : Message;
  guru_response : Message
}.

(** [response.data] of [GET /conversation/:id]; [data_messages] is [None]
    when the field is missing or null. *)
Record ConversationData := {
  data_messages : option (list Message)
}.

(** What [handleSendMessage] closed over when it reached its [await]. *)
Record SendClosure := {
  tempUserMsg : Message;
  userMessage : jsstring;
  send_userId : option jsstring;
  send_currentConversationId : option jsstring
}.

(** What [handleDeleteConversation] closed over when it reached its
    [await]. *)
Record DeleteClosure := {
  del_convId : jsstring;
  del_userId : option jsstring;
  del_currentConversationId : option jsstring
}.

(** Notifications shown through [toast]. *)
Inductive Toast :=
| toast_success (text : jsstring)
| toast_error (text : jsstring).

(** [response.data] of [GET /users/:uid], as far as the page reads it
    ([user?.name], [user?.alignment]). *)
Record UserProfile := {
  profile_name : option jsstring;
  profile_alignment : option jsstring
}.

(** What the model takes from the router: the pathname on which the
    page is entered, and, for [navigate(`/chat/${convId}`)], the pathname
    the location then has and the [conversationId] that [useParams] then
    gives (the id, as far as the router leaves it as written). *)
Record Router := {
  entry_pathname : jsstring;
  chat_route : jsstring -> jsstring * option jsstring
}.

(** The component and what it reads around it.  The two refs, scrolling
    and focus only feed the rendering and are left out. *)
Record ChatPage := {
  router : Router;   (* the router the page runs under *)
  pocketGuruUserId : option jsstring;   (* localStorage *)
  pathname : jsstring;   (* location.pathname *)
  conversationId : option jsstring;   (* useParams() *)
  userId : option jsstring;
  user : option UserProfile;
  message : jsstring;   (* the input buffer *)
  messages : list Message;   (* the transcript *)
  conversations : list Conversation;
  currentConversationId : option jsstring;
  isLoading : bool;
  isSidebarOpen : bool;
  toasts : list Toast;
  chat_posts : list SendClosure;   (* awaited POST /chat *)
  conversation_gets : list jsstring;   (* awaited GET /conversation/:id *)
  conversations_gets : list (option jsstring);   (* awaited GET /conversations/:uid *)
  user_gets : list jsstring;   (* awaited GET /users/:uid *)
  conversation_deletes : list DeleteClosure   (* awaited DELETE /conversation/:id *)
}.

(** *** State setters *)

Definition setMessage (v : jsstring) (s : ChatPage) : ChatPage :=
  {| router := router s;
     pocketGuruUserId := pocketGuruUserId s;
     pathname := pathname s;
     conversationId := conversationId s;
     userId := userId s;
     user := user s;
     message := v;
     messages := messages s;
     conversations := conversations s;
     currentConversationId := currentConversationId s;
     isLoading := isLoading s;
     isSidebarOpen := isSidebarOpen s;
     toasts := toasts s;
     chat_posts := chat_posts s;
     conversation_gets := conversation_gets s;
     conversations_gets := conversations_gets s;
     user_gets := user_gets s;
     conversation_deletes := conversation_deletes s |}.

(** [setMessages(prev => f(prev))]. *)
Definition setMessages (f : list Message -> list Message) (s : ChatPage) : ChatPage :=
  {| router := router s;
     pocketGuruUserId := pocketGuruUserId s;
     pathname := pathname s;
     conversationId := conversationId s;
     userId := userId s;
     user := user s;
     message := message s;
     messages := f (messages s);
     conversations := conversations s;
     currentConversationId := currentConversationId s;
     isLoading := isLoading s;
     isSidebarOpen := isSidebarOpen s;
     toasts := toasts s;
     chat_posts := chat_posts s;
     conversation_gets := conversation_gets s;
     conversations_gets := conversations_gets s;
     user_gets := user_gets s;
     conversation_deletes := conversation_deletes s |}.

Definition setConversations (v : list Conversation) (s : ChatPage) : ChatPage :=
  {| router := router s;
     pocketGuruUserId := pocketGuruUserId s;
     pathname := pathname s;
     conversationId := conversationId s;
     userId := userId s;
     user := user s;
     message := message s;
     messages := messages s;
     conversations := v;
     currentConversationId := currentConversationId s;
     isLoading := isLoading s;
     isSidebarOpen := isSidebarOpen s;
     toasts := toasts s;
     chat_posts := chat_posts s;
     conversation_gets := conversation_gets s;
     conversations_gets := conversations_gets s;
     user_gets := user_gets s;
     conversation_deletes := conversation_deletes s |}.

Definition setCurrentConversationId (v : option jsstring) (s : ChatPage) : ChatPage :=
  {| router := router s;
     pocketGuruUserId := pocketGuruUserId s;
     pathname := pathname s;
     conversationId := conversationId s;
     userId := userId s;
     user := user s;
     message := message s;
     messages := messages s;
     conversations := conversations s;
     currentConversationId := v;
     isLoading := isLoading s;
     isSidebarOpen := isSidebarOpen s;
     toasts := toasts s;
     chat_posts := chat_posts s;
     conversation_gets := conversation_gets s;
     conversations_gets := conversations_gets s;
     user_gets := user_gets s;
     conversation_deletes := conversation_deletes s |}.

Definition setIsLoading (v : bool) (s : ChatPage) : ChatPage :=
  {| router := router s;
     pocketGuruUserId := pocketGuruUserId s;
     pathname := pathname s;
     conversationId := conversationId s;
     userId := userId s;
     user := user s;
     message := message s;
     messages := messages s;
     conversations := conversations s;
     currentConversationId := currentConversationId s;
     isLoading := v;
     isSidebarOpen := isSidebarOpen s;
     toasts := toasts s;
     chat_posts := chat_posts s;
     conversation_gets := conversation_gets s;
     conversations_gets := conversations_gets s;
     user_gets := user_gets s;
     conversation_deletes := conversation_deletes s |}.

Definition setIsSidebarOpen (v : bool) (s : ChatPage) : ChatPage :=
  {| router := router s;
     pocketGuruUserId := pocketGuruUserId s;
     pathname := pathname s;
     conversationId := conversationId s;
     userId := userId s;
     user := user s;
     message := message s;
     messages := messages s;
     conversations := conversations s;
     currentConversationId := currentConversationId s;
     isLoading := isLoading s;
     isSidebarOpen := v;
     toasts := toasts s;
     chat_posts := chat_posts s;
     conversation_gets := conversation_gets s;
     conversations_gets := conversations_gets s;
     user_gets := user_gets s;
     conversation_deletes := conversation_deletes s |}.

Definition setUserId (v : option jsstring) (s : ChatPage) : ChatPage :=
  {| router := router s;
     pocketGuruUserId := pocketGuruUserId s;
     pathname := pathname s;
     conversationId := conversationId s;
     userId := v;
     user := user s;
     message := message s;
     messages := messages s;
     conversations := conversations s;
     currentConversationId := currentConversationId s;
     isLoading := isLoading s;
     isSidebarOpen := isSidebarOpen s;
     toasts := toasts s;
     chat_posts := chat_posts s;
     conversation_gets := conversation_gets s;
     conversations_gets := conversations_gets s;
     user_gets := user_gets s;
     conversation_deletes := conversation_deletes s |}.

Definition setUser (v : option UserProfile) (s : ChatPage) : ChatPage :=
  {| router := router s;
     pocketGuruUserId := pocketGuruUserId s;
     pathname := pathname s;
     conversationId := conversationId s;
     userId := userId s;
     user := v;
     message := message s;
     messages := messages s;
     conversations := conversations s;
     currentConversationId := currentConversationId s;
     isLoading := isLoading s;
     isSidebarOpen := isSidebarOpen s;
     toasts := toasts s;
     chat_posts := chat_posts s;
     conversation_gets := conversation_gets s;
     conversations_gets := conversations_gets s;
     user_gets := user_gets s;
     conversation_deletes := conversation_deletes s |}.

(** The router puts the new location in place: its pathname and the
    parameter the route binds. *)
Definition set_location (p : jsstring) (c : option jsstring) (s : ChatPage) : ChatPage :=
  {| router := router s;
     pocketGuruUserId := pocketGuruUserId s;
     pathname := p;
     conversationId := c;
     userId := userId s;
     user := user s;
     message := message s;
     messages := messages s;
     conversations := conversations s;
     currentConversationId := currentConversationId s;
     isLoading := isLoading s;
     isSidebarOpen := isSidebarOpen s;
     toasts := toasts s;
     chat_posts := chat_posts s;
     conversation_gets := conversation_gets s;
     conversations_gets := conversations_gets s;
     user_gets := user_gets s;
     conversation_deletes := conversation_deletes s |}.

Definition toast (t : Toast) (s : ChatPage) : ChatPage :=
  {| router := router s;
     pocketGuruUserId := pocketGuruUserId s;
     pathname := pathname s;
     conversationId := conversationId s;
     userId := userId s;
     user := user s;
     message := message s;
     messages := messages s;
     conversations := conversations s;
     currentConversationId := currentConversationId s;
     isLoading := isLoading s;
     isSidebarOpen := isSidebarOpen s;
     toasts := toasts s ++ [t];
     chat_posts := chat_posts s;
     conversation_gets := conversation_gets s;
     conversations_gets := conversations_gets s;
     user_gets := user_gets s;
     conversation_deletes := conversation_deletes s |}.

Definition set_chat_posts (v : list SendClosure) (s : ChatPage) : ChatPage :=
  {| router := router s;
     pocketGuruUserId := pocketGuruUserId s;
     pathname := pathname s;
     conversationId := conversationId s;
     userId := userId s;
     user := user s;
     message := message s;
     messages := messages s;
     conversations := conversations s;
     currentConversationId := currentConversationId s;
     isLoading := isLoading s;
     isSidebarOpen := isSidebarOpen s;
     toasts := toasts s;
     chat_posts := v;
     conversation_gets := conversation_gets s;
     conversations_gets := conversations_gets s;
     user_gets := user_gets s;
     conversation_deletes := conversation_deletes s |}.

Definition set_conversation_gets (v : list jsstring) (s : ChatPage) : ChatPage :=
  {| router := router s;
     pocketGuruUserId := pocketGuruUserId s;
     pathname := pathname s;
     conversationId := conversationId s;
     userId := userId s;
     user := user s;
     message := message s;
     messages := messages s;
     conversations := conversations s;
     currentConversationId := currentConversationId s;
     isLoading := isLoading s;
     isSidebarOpen := isSidebarOpen s;
     toasts := toasts s;
     chat_posts := chat_posts s;
     conversation_gets := v;
     conversations_gets := conversations_gets s;
     user_gets := user_gets s;
     conversation_deletes := conversation_deletes s |}.

Definition set_conversations_gets (v : list (option jsstring)) (s : ChatPage) : ChatPage :=
  {| router := router s;
     pocketGuruUserId := pocketGuruUserId s;
     pathname := pathname s;
     conversationId := conversationId s;
     userId := userId s;
     user := user s;
     message := message s;
     messages := messages s;
     conversations := conversations s;
     currentConversationId := currentConversationId s;
     isLoading := isLoading s;
     isSidebarOpen := isSidebarOpen s;
     toasts := toasts s;
     chat_posts := chat_posts s;
     conversation_gets := conversation_gets s;
     conversations_gets := v;
     user_gets := user_gets s;
     conversation_deletes := conversation_deletes s |}.

Definition set_user_gets (v : list jsstring) (s : ChatPage) : ChatPage :=
  {| router := router s;
     pocketGuruUserId := pocketGuruUserId s;
     pathname := pathname s;
     conversationId := conversationId s;
     userId := userId s;
     user := user s;
     message := message s;
     messages := messages s;
     conversations := conversations s;
     currentConversationId := currentConversationId s;
     isLoading := isLoading s;
     isSidebarOpen := isSidebarOpen s;
     toasts := toasts s;
     chat_posts := chat_posts s;
     conversation_gets := conversation_gets s;
     conversations_gets := conversations_gets s;
     user_gets := v;
     conversation_deletes := conversation_deletes s |}.

Definition set_conversation_deletes (v : list DeleteClosure) (s : ChatPage) : ChatPage :=
  {| router := router s;
     pocketGuruUserId := pocketGuruUserId s;
     pathname := pathname s;
     conversationId := conversationId s;
     userId := userId s;
     user := user s;
     message := message s;
     messages := messages s;
     conversations := conversations s;
     currentConversationId := currentConversationId s;
     isLoading := isLoading s;
     isSidebarOpen := isSidebarOpen s;
     toasts := toasts s;
     chat_posts := chat_posts s;
     conversation_gets := conversation_gets s;
     conversations_gets := conversations_gets s;
     user_gets := user_gets s;
     conversation_deletes := v |}.

(** Statements of a handler, read left to right. *)
Notation "s '|>' f" := (f s) (at level 45, left associativity, only parsing).

(** Removing the request that settled from a list of awaited ones. *)
Definition remove_nth {A : Type} (i : nat) (l : list A) : list A :=
  firstn i l ++ skipn (S i) l.

(** ** The handlers of [ChatPage] *)

(** [navigate("/chat", { replace: true })]: the route without parameter. *)
Definition navigate_chat (s : ChatPage) : ChatPage :=
  s |> set_location (str "/chat") None.

(** [navigate(`/chat/${convId}`, { replace: true })]: the location and
    the parameter are what the router makes of that path. *)
Definition navigate_conversation (convId : jsstring) (s : ChatPage) : ChatPage :=
  s |> set_location (fst (chat_route (router s) convId))
                    (snd (chat_route (router s) convId)).

(** [navigate("/onboarding")]: the router leaves the page, which ends
    the instance; the model keeps its cells as they are. *)
Definition navigate_onboarding (s : ChatPage) : ChatPage :=
  s |> set_location (str "/onboarding") None.

(** [fetchConversations(uid)] up to its [await]. *)
Definition fetchConversations (uid : option jsstring) (s : ChatPage) : ChatPage :=
  s |> set_conversations_gets (conversations_gets s ++ [uid]).

(** [fetchConversations] after its [await]; the [catch] only logs. *)
Definition fetchConversations_settled (r : Promise (list Conversation))
  (s : ChatPage) : ChatPage :=
  match r with
  | Fulfilled data => s |> setConversations data
  | Rejected _ => s
  end.

(** [fetchConversation(convId)] up to its [await]. *)
Definition fetchConversation (convId : jsstring) (s : ChatPage) : ChatPage :=
  s |> set_conversation_gets (conversation_gets s ++ [convId]).

(** [fetchConversation] after its [await]:
    [setMessages(response.data.messages || [])]; the [catch] only logs. *)
Definition fetchConversation_settled (r : Promise ConversationData)
  (s : ChatPage) : ChatPage :=
  match r with
  | Fulfilled data =>
      s |> setMessages (fun _ =>
             match data_messages data with Some ms => ms | None => [] end)
  | Rejected _ => s
  end.

(** The effect with dependency [[conversationId]]. *)
Definition conversationId_effect (s : ChatPage) : ChatPage :=
  match conversationId s with
  | Some c =>
      if truthy c && negb (opt_eqb (Some c) (currentConversationId s))
      then s |> setCurrentConversationId (Some c) |> fetchConversation c
      else s
  | None => s
  end.

(** [fetchUser(uid)] up to its [await]. *)
Definition fetchUser (uid : jsstring) (s : ChatPage) : ChatPage :=
  s |> set_user_gets (user_gets s ++ [uid]).

(** [fetchUser] after its [await]; the [catch] only logs. *)
Definition fetchUser_settled (r : Promise UserProfile) (s : ChatPage)
  : ChatPage :=
  match r with
  | Fulfilled data => s |> setUser (Some data)
  | Rejected _ => s
  end.

(** The effect with dependency [[navigate]], whose identity changes with
    the pathname: without a user id in local storage it leaves for
    [/onboarding]; otherwise it stores the id and fetches the profile and
    the sidebar list. *)
Definition navigate_effect (s : ChatPage) : ChatPage :=
  if truthy_opt (pocketGuruUserId s)
  then match pocketGuruUserId s with
       | Some storedUserId =>
           s |> setUserId (Some storedUserId)
             |> fetchUser storedUserId
             |> fetchConversations (Some storedUserId)
       | None => s
       end
  else navigate_onboarding s.

(** How the synchronous part of a handler completes. *)
Inductive Completion :=
| Returned
| Thrown (error : jsstring).

(** [`temp-${Date.now()}`] *)
Definition temp_id (now : N) : jsstring := str "temp-" ++ decimal now.

(** The optimistic entry; [now] is [Date.now()] and [iso] is
    [new Date().toISOString()]. *)
Definition make_tempUserMsg (now : N) (iso : jsstring) (text : jsstring)
  : Message :=
  {| id := temp_id now; role := str "user"; content := text;
     timestamp := iso; shloka := None |}.

(** [prev.filter(m => m.id !== tempUserMsg.id)] *)
Definition without (temp : Message) (prev : list Message) : list Message :=
  filter (fun m => negb (jseqb (id m) (id temp))) prev.

(** [handleSendMessage] up to its [await axios.post]. *)
Definition handleSendMessage (now : N) (iso : jsstring) (s : ChatPage)
  : ChatPage * Completion :=
  if negb (truthy (trim (message s))) || isLoading s then (s, Returned)
  else
    let userMessage := trim (message s) in
    let tempUserMsg := make_tempUserMsg now iso userMessage in
    let k := {| tempUserMsg := tempUserMsg;
                userMessage := userMessage;
                send_userId := userId s;
                send_currentConversationId := currentConversationId s |} in
    (s |> setMessage []
       |> setIsLoading true
       |> setMessages (fun prev => prev ++ [tempUserMsg])
       |> set_chat_posts (chat_posts s ++ [k]),
     Returned).

(** [handleSendMessage] after its [await]: the rest of the [try] when
    the request is fulfilled, the [catch] when it is rejected, and the
    [finally] in both cases. *)
Definition handleSendMessage_settled (k : SendClosure) (r : Promise ChatData)
  (s : ChatPage) : ChatPage :=
  match r with
  | Fulfilled data =>
      let s1 :=
        s |> setMessages (fun prev =>
               without (tempUserMsg k) prev
               ++ [data_message data; guru_response data]) in
      let s2 :=
        if negb (truthy_opt (send_currentConversationId k))
        then s1 |> setCurrentConversationId (Some (conversation_id data))
                |> navigate_conversation (conversation_id data)
        else s1 in
      s2 |> fetchConversations (send_userId k)
         |> setIsLoading false
  | Rejected _ =>
      s |> toast (toast_error (str "Failed to send message. Please try again."))
        |> setMessages (fun prev => without (tempUserMsg k) prev)
        |> setMessage (userMessage k)
        |> setIsLoading false
  end.

Definition handleNewConversation (s : ChatPage) : ChatPage :=
  s |> setCurrentConversationId None
    |> setMessages (fun _ => [])
    |> setIsSidebarOpen false
    |> navigate_chat.

Definition handleSelectConversation (convId : jsstring) (s : ChatPage)
  : ChatPage :=
  s |> setCurrentConversationId (Some convId)
    |> fetchConversation convId
    |> setIsSidebarOpen false
    |> navigate_conversation convId.

(** [handleDeleteConversation] up to its [await axios.delete]. *)
Definition handleDeleteConversation (convId : jsstring) (s : ChatPage)
  : ChatPage :=
  let k := {| del_convId := convId;
              del_userId := userId s;
              del_currentConversationId := currentConversationId s |} in
  s |> set_conversation_deletes (conversation_deletes s ++ [k]).

(** [handleDeleteConversation] after its [await]. *)
Definition handleDeleteConversation_settled (k : DeleteClosure)
  (r : Promise unit) (s : ChatPage) : ChatPage :=
  match r with
  | Fulfilled _ =>
      let s1 := s |> toast (toast_success (str "Conversation deleted"))
                  |> fetchConversations (del_userId k) in
      if opt_eqb (Some (del_convId k)) (del_currentConversationId k)
      then handleNewConversation s1
      else s1
  | Rejected _ =>
      s |> toast (toast_error (str "Failed to delete conversation"))
  end.

(** ** Events and executions *)

Inductive Event :=
| Change (text : jsstring)
    (* the input's [onChange], a quick prompt: [setMessage(text)] *)
| Submit (now : N) (iso : jsstring)
    (* the form's [onSubmit] *)
| ChatSettled (i : nat) (r : Promise ChatData)
| NewConversation
| SelectConversation (convId : jsstring)
| ConversationSettled (i : nat) (r : Promise ConversationData)
| ConversationsSettled (i : nat) (r : Promise (list Conversation))
| UserSettled (i : nat) (r : Promise UserProfile)
| DeleteConversation (convId : jsstring)
| DeleteSettled (i : nat) (r : Promise unit)
| SidebarOpenChange (open : bool)
| RouteChange (path : jsstring) (param : option jsstring).
    (* the location is changed from outside the component, the page
       staying rendered *)

(** The transition of one event, before effects. *)
Definition handle (e : Event) (s : ChatPage) : ChatPage :=
  match e with
  | Change text => s |> setMessage text
  | Submit now iso => fst (handleSendMessage now iso s)
  | ChatSettled i r =>
      match nth_error (chat_posts s) i with
      | Some k =>
          s |> set_chat_posts (remove_nth i (chat_posts s))
            |> handleSendMessage_settled k r
      | None => s
      end
  | NewConversation => handleNewConversation s
  | SelectConversation convId => handleSelectConversation convId s
  | ConversationSettled i r =>
      match nth_error (conversation_gets s) i with
      | Some _ =>
          s |> set_conversation_gets (remove_nth i (conversation_gets s))
            |> fetchConversation_settled r
      | None => s
      end
  | ConversationsSettled i r =>
      match nth_error (conversations_gets s) i with
      | Some _ =>
          s |> set_conversations_gets (remove_nth i (conversations_gets s))
            |> fetchConversations_settled r
      | None => s
      end
  | UserSettled i r =>
      match nth_error (user_gets s) i with
      | Some _ =>
          s |> set_user_gets (remove_nth i (user_gets s))
            |> fetchUser_settled r
      | None => s
      end
  | DeleteConversation convId => handleDeleteConversation convId s
  | DeleteSettled i r =>
      match nth_error (conversation_deletes s) i with
      | Some k =>
          s |> set_conversation_deletes (remove_nth i (conversation_deletes s))
            |> handleDeleteConversation_settled k r
      | None => s
      end
  | SidebarOpenChange open => s |> setIsSidebarOpen open
  | RouteChange path param => s |> set_location path param
  end.

(** The effects of the render that follows a transition from [s] to
    [s']: the [[conversationId]] effect when the parameter is no longer
    the one of the previous render, the [[navigate]] effect when the
    pathname is not.  In the source the [[navigate]] effect is declared
    first; both run with the values of the same render, and with a user id
    in local storage they write different cells, so the order does not
    matter ([effects_commute]).  The [[navigate]] effect is put last here
    because, when it leaves for [/onboarding], the other one still runs
    with the parameter of that render, not with the location left for. *)
Definition effects (s s' : ChatPage) : ChatPage :=
  let s1 := if opt_eqb (conversationId s) (conversationId s')
            then s' else conversationId_effect s' in
  if jseqb (pathname s) (pathname s') then s1 else navigate_effect s1.

(** One event: the transition, then the effects. *)
Definition step (e : Event) (s : ChatPage) : ChatPage :=
  effects s (handle e s).

Definition run (es : list Event) (s : ChatPage) : ChatPage :=
  fold_left (fun s e => step e s) es s.

(** The component after its first render and its mount effects, under
    the router [r], for the route parameter [param] and the user id
    [stored] in local storage: [currentConversationId] starts as
    [conversationId || null], and both effects run. *)
Definition mount (r : Router) (param : option jsstring) (stored : jsstring)
  : ChatPage :=
  navigate_effect
    (conversationId_effect
       {| router := r;
          pocketGuruUserId := Some stored;
          pathname := entry_pathname r;
          conversationId := param;
          userId := None;
          user := None;
          message := [];
          messages := [];
          conversations := [];
          currentConversationId := if truthy_opt param then param else None;
          isLoading := false;
          isSidebarOpen := false;
          toasts := [];
          chat_posts := [];
          conversation_gets := [];
          conversations_gets := [];
          user_gets := [];
          conversation_deletes := [] |}).

(** ** Transient and confirmed entries *)

(** An entry is transient when its id is a [temp-] id. *)
Definition is_transient (m : Message) : bool :=
  starts_with (str "temp-") (id m).

Definition count_transient (ms : list Message) : nat :=
  length (filter is_transient ms).

Definition count_confirmed (ms : list Message) : nat :=
  length (filter (fun m => negb (is_transient m)) ms).

(** Ids assigned by the server are not [temp-] ids: the check on what
    an event brings from the server. *)
Definition server_ok (e : Event) : bool :=
  match e with
  | ChatSettled _ (Fulfilled data) =>
      negb (is_transient (data_message data))
      && negb (is_transient (guru_response data))
  | ConversationSettled _ (Fulfilled data) =>
      match data_messages data with
      | Some ms => forallb (fun m => negb (is_transient m)) ms
      | None => true
      end
  | _ => true
  end.

(** ** Closures, as the handlers build them *)

(** The closure of [handleSendMessage] called in state [s]. *)
Definition send_closure (now : N) (iso : jsstring) (s : ChatPage)
  : SendClosure :=
  {| tempUserMsg := make_tempUserMsg now iso (trim (message s));
     userMessage := trim (message s);
     send_userId := userId s;
     send_currentConversationId := currentConversationId s |}.

(** The closure of [handleDeleteConversation(convId)] called in state
    [s]. *)
Definition delete_closure (convId : jsstring) (s : ChatPage) : DeleteClosure :=
  {| del_convId := convId;
     del_userId := userId s;
     del_currentConversationId := currentConversationId s |}.

(** ** Ids and the router *)

(** The router leaves [convId] as written: after
    [navigate(`/chat/${convId}`)] the parameter is [convId] (and there is
    none for the empty id).  Routers do so for ids that are plain path
    segments, such as UUIDs; an id with a percent escape, for one, comes
    back decoded. *)
Definition binds (r : Router) (convId : jsstring) : bool :=
  opt_eqb (snd (chat_route r convId))
          (if truthy convId then Some convId else None).

(** The ids an event makes the component navigate to are left as
    written by the router. *)
Definition binds_event (r : Router) (e : Event) : bool :=
  match e with
  | SelectConversation convId => binds r convId
  | ChatSettled _ (Fulfilled data) => binds r (conversation_id data)
  | _ => true
  end.

(** ** The single-send invariant *)

(** While [isLoading] holds exactly one request is awaited and every
    transient entry of the transcript is its optimistic entry, of which
    there is at most one; otherwise no request is awaited and the
    transcript has no transient entry. *)
Definition send_inv (s : ChatPage) : Prop :=
  if isLoading s
  then exists k, chat_posts s = [k]
         /\ (forall m, In m (messages s) -> is_transient m = true ->
               id m = id (tempUserMsg k))
         /\ count_transient (messages s) <= 1
  else chat_posts s = [] /\ count_transient (messages s) = 0.

(** ** Sample data *)

Definition sample_message (i r c : string) : Message :=
  {| id := str i; role := str r; content := str c;
     timestamp := str "2026-02-16T10:00:00.000Z"; shloka := None |}.

Definition sample_history (ms : list Message) : Promise ConversationData :=
  Fulfilled {| data_messages := Some ms |}.

Definition a1 : Message := sample_message "a1" "user" "I feel stressed".
Definition a2 : Message := sample_message "a2" "guru" "Breathe, dear seeker.".
Definition b1 : Message := sample_message "b1" "user" "Guide me on my path".
Definition m1 : Message := sample_message "m1" "user" "What is dharma?".
Definition g1 : Message := sample_message "g1" "guru" "Dharma is right action.".

Definition sample_reply (conv : string) : Promise ChatData :=
  Fulfilled {| conversation_id := str conv; data_message := m1;
               guru_response := g1 |}.

Definition sample_iso : jsstring := str "2026-02-16T10:00:01.000Z".

(** The value of [%XY] for two hexadecimal digits below [0x80]. *)
Definition hex_digit (c : N) : option N :=
  if N.leb 48 c && N.leb c 57 then Some (c - 48)%N
  else if N.leb 65 c && N.leb c 70 then Some (c - 55)%N
  else if N.leb 97 c && N.leb c 102 then Some (c - 87)%N
  else None.

Definition escaped (h l : N) : option N :=
  match hex_digit h, hex_digit l with
  | Some a, Some b => if N.ltb (16 * a + b) 128 then Some (16 * a + b)%N else None
  | _, _ => None
  end.

(** Decoding of the ASCII percent escapes of a path segment. *)
Fixpoint unescape (s : jsstring) : jsstring :=
  match s with
  | [] => []
  | c :: s' =>
      match s' with
      | h :: l :: rest =>
          match (if N.eqb c 37 then escaped h l else None) with
          | Some u => u :: unescape rest
          | None => c :: unescape s'
          end
      | _ => c :: unescape s'
      end
  end.

(** The router of the samples, entered on [entry]: the location of
    [/chat/${convId}] is that path and the parameter is the id with its
    ASCII percent escapes decoded (none for the empty id).  This is what
    the router does with ids made of letters, digits, [-], [_] and such
    escapes; the samples use no other. *)
Definition router_at (entry : string) : Router :=
  {| entry_pathname := str entry;
     chat_route := fun convId =>
       (str "/chat/" ++ convId,
        if truthy convId then Some (unescape convId) else None) |}.

(** The component mounted on [/chat] for user [u1]. *)
Definition fresh : ChatPage := mount (router_at "/chat") None (str "u1").

(** Conversation [A] is open with its history [a1; a2] loaded. *)
Definition viewing_A : ChatPage :=
  run [SelectConversation (str "A");
       ConversationSettled 0 (sample_history [a1; a2])] fresh.

(** Reading a field of a state after a sequence of setters. *)
Ltac fields :=
  cbn [router pocketGuruUserId pathname conversationId userId user message
       messages conversations
       currentConversationId isLoading isSidebarOpen toasts chat_posts
       conversation_gets conversations_gets user_gets conversation_deletes
       setMessage setMessages setConversations setCurrentConversationId
       setIsLoading setIsSidebarOpen setUserId setUser set_location toast
       set_chat_posts set_conversation_gets set_conversations_gets
       set_user_gets
       set_conversation_deletes navigate_chat navigate_conversation
       navigate_onboarding fetchUser fetchUser_settled
       fetchConversations fetchConversation fetchConversations_settled
       fetchConversation_settled handleNewConversation
       handleSelectConversation handleDeleteConversation
       tempUserMsg userMessage send_userId send_currentConversationId
       del_convId del_userId del_currentConversationId
       conversation_id data_message guru_response fst snd].

Ltac fields_in H :=
  cbn [router pocketGuruUserId pathname conversationId userId user message
       messages conversations
       currentConversationId isLoading isSidebarOpen toasts chat_posts
       conversation_gets conversations_gets user_gets conversation_deletes
       setMessage setMessages setConversations setCurrentConversationId
       setIsLoading setIsSidebarOpen setUserId setUser set_location toast
       set_chat_posts set_conversation_gets set_conversations_gets
       set_user_gets
       set_conversation_deletes navigate_chat navigate_conversation
       navigate_onboarding fetchUser fetchUser_settled
       fetchConversations fetchConversation fetchConversations_settled
       fetchConversation_settled handleNewConversation
       handleSelectConversation handleDeleteConversation
       tempUserMsg userMessage send_userId send_currentConversationId
       del_convId del_userId del_currentConversationId
       conversation_id data_message guru_response fst snd] in H.


(** ** The rest of [ChatPage] *)

(** The first effect of [ChatPage]: without a user id in local storage
    ([getItem] gives [null], or an empty string) it leaves for
    [/onboarding] and nothing else happens, here [None]; otherwise the
    component is the mounted one. *)
Definition enter_chat (r : Router) (param : option jsstring)
  (stored : option jsstring) : option ChatPage :=
  match stored with
  | Some uid => if truthy uid then Some (mount r param uid) else None
  | None => None
  end.

(** The send button: [disabled={!message.trim() || isLoading}]. *)
Definition send_button_disabled (s : ChatPage) : bool :=
  negb (truthy (trim (message s))) || isLoading s.

(** The entries of a transcript that are not transient, in order. *)
Definition confirmed_entries (ms : list Message) : list Message :=
  filter (fun m => negb (is_transient m)) ms.

(** What every closure built by [handleSendMessage] satisfies: its
    optimistic entry has a [temp-] id and the text that is sent as its
    content; that text is not empty and has no white space around it. *)
Definition closure_ok (k : SendClosure) : Prop :=
  is_transient (tempUserMsg k) = true
  /\ content (tempUserMsg k) = userMessage k
  /\ truthy (userMessage k) = true
  /\ trim (userMessage k) = userMessage k.

(** One request of a send is awaited exactly while [isLoading] holds,
    and every awaited one has a closure as above. *)
Definition flight_inv (s : ChatPage) : Prop :=
  length (chat_posts s) = (if isLoading s then 1 else 0)
  /\ Forall closure_ok (chat_posts s).

(** A route parameter that is not empty is the active conversation id. *)
Definition route_in_sync (s : ChatPage) : Prop :=
  forall c, conversationId s = Some c -> truthy c = true ->
            currentConversationId s = Some c.

(** Events other than a route change made from outside. *)
Definition from_component (e : Event) : bool :=
  match e with
  | RouteChange _ _ => false
  | _ => true
  end.

(** ** [AdminPage]: the conversation logs

    The first module of [src/unnamed/part_004]: the state cells of the
    component, [fetchData] cut at its [await Promise.all], and the effect
    that filters the table. *)

Module Admin.

(** [conv.user]: both fields are read with [?.] and may be missing. *)
Record User := {
  name : option jsstring;
  alignment : option jsstring
}.

(** A row of [GET /admin/conversations]. *)
Record Conversation := {
  id : jsstring;
  user : option User;
  title : jsstring;
  messages : option (list Message);
  updated_at : jsstring
}.

(** The payload of [GET /admin/stats]. *)
Record Stats := {
  total_users : N;
  total_conversations : N;
  alignment_breakdown : option (list (jsstring * N))
}.

Record AdminPage := {
  stats : option Stats;
  conversations : list Conversation;
  filteredConversations : list Conversation;
  alignmentFilter : jsstring;
  isLoading : bool;
  selectedConversation : option Conversation;
  isDialogOpen : bool;
  fetches : nat                       (* awaited [Promise.all]s *)
}.

Definition setStats (v : option Stats) (s : AdminPage) : AdminPage :=
  {| stats := v; conversations := conversations s;
     filteredConversations := filteredConversations s;
     alignmentFilter := alignmentFilter s; isLoading := isLoading s;
     selectedConversation := selectedConversation s;
     isDialogOpen := isDialogOpen s; fetches := fetches s |}.

Definition setConversations (v : list Conversation) (s : AdminPage)
  : AdminPage :=
  {| stats := stats s; conversations := v;
     filteredConversations := filteredConversations s;
     alignmentFilter := alignmentFilter s; isLoading := isLoading s;
     selectedConversation := selectedConversation s;
     isDialogOpen := isDialogOpen s; fetches := fetches s |}.

Definition setFilteredConversations (v : list Conversation) (s : AdminPage)
  : AdminPage :=
  {| stats := stats s; conversations := conversations s;
     filteredConversations := v;
     alignmentFilter := alignmentFilter s; isLoading := isLoading s;
     selectedConversation := selectedConversation s;
     isDialogOpen := isDialogOpen s; fetches := fetches s |}.

Definition setAlignmentFilter (v : jsstring) (s : AdminPage) : AdminPage :=
  {| stats := stats s; conversations := conversations s;
     filteredConversations := filteredConversations s;
     alignmentFilter := v; isLoading := isLoading s;
     selectedConversation := selectedConversation s;
     isDialogOpen := isDialogOpen s; fetches := fetches s |}.

Definition setIsLoading (v : bool) (s : AdminPage) : AdminPage :=
  {| stats := stats s; conversations := conversations s;
     filteredConversations := filteredConversations s;
     alignmentFilter := alignmentFilter s; isLoading := v;
     selectedConversation := selectedConversation s;
     isDialogOpen := isDialogOpen s; fetches := fetches s |}.

Definition setSelectedConversation (v : option Conversation) (s : AdminPage)
  : AdminPage :=
  {| stats := stats s; conversations := conversations s;
     filteredConversations := filteredConversations s;
     alignmentFilter := alignmentFilter s; isLoading := isLoading s;
     selectedConversation := v;
     isDialogOpen := isDialogOpen s; fetches := fetches s |}.

Definition setIsDialogOpen (v : bool) (s : AdminPage) : AdminPage :=
  {| stats := stats s; conversations := conversations s;
     filteredConversations := filteredConversations s;
     alignmentFilter := alignmentFilter s; isLoading := isLoading s;
     selectedConversation := selectedConversation s;
     isDialogOpen := v; fetches := fetches s |}.

Definition set_fetches (v : nat) (s : AdminPage) : AdminPage :=
  {| stats := stats s; conversations := conversations s;
     filteredConversations := filteredConversations s;
     alignmentFilter := alignmentFilter s; isLoading := isLoading s;
     selectedConversation := selectedConversation s;
     isDialogOpen := isDialogOpen s; fetches := v |}.

(** [conv.user?.alignment] *)
Definition user_alignment (conv : Conversation) : option jsstring :=
  match user conv with
  | Some u => alignment u
  | None => None
  end.

(** [conv.user?.alignment === alignmentFilter] *)
Definition matches (alignmentFilter : jsstring) (conv : Conversation) : bool :=
  opt_eqb (user_alignment conv) (Some alignmentFilter).

(** What the table is to show for a filter. *)
Definition visible (alignmentFilter : jsstring) (convs : list Conversation)
  : list Conversation :=
  if jseqb alignmentFilter (str "all") then convs
  else filter (matches alignmentFilter) convs.

(** The effect with dependencies [[alignmentFilter, conversations]]. *)
Definition filter_effect (s : AdminPage) : AdminPage :=
  if jseqb (alignmentFilter s) (str "all")
  then s |> setFilteredConversations (conversations s)
  else s |> setFilteredConversations
              (filter (matches (alignmentFilter s)) (conversations s)).

(** The alignment a row's badge is drawn for:
    [getAlignmentBadge(conv.user?.alignment || "universal")]. *)
Definition badge_alignment (conv : Conversation) : jsstring :=
  match user_alignment conv with
  | Some a => if truthy a then a else str "universal"
  | None => str "universal"
  end.

(** [Promise.all] of two requests: fulfilled with both payloads when
    both are fulfilled, rejected as soon as one is. *)
Definition promise_all {A B : Type} (r1 : Promise A) (r2 : Promise B)
  : Promise (A * B) :=
  match r1, r2 with
  | Fulfilled a, Fulfilled b => Fulfilled (a, b)
  | Rejected e, _ => Rejected e
  | _, Rejected e => Rejected e
  end.

(** [fetchData] up to its [await]. *)
Definition fetchData (s : AdminPage) : AdminPage :=
  s |> setIsLoading true |> set_fetches (S (fetches s)).

(** [fetchData] after its [await]; the [catch] only logs. *)
Definition fetchData_settled (r : Promise (Stats * list Conversation))
  (s : AdminPage) : AdminPage :=
  match r with
  | Fulfilled (statsData, convsData) =>
      s |> setStats (Some statsData)
        |> setConversations convsData
        |> setFilteredConversations convsData
        |> setIsLoading false
  | Rejected _ => s |> setIsLoading false
  end.

Definition handleViewConversation (conv : Conversation) (s : AdminPage)
  : AdminPage :=
  s |> setSelectedConversation (Some conv) |> setIsDialogOpen true.

Inductive Event :=
| Refresh                                   (* the refresh button *)
| DataSettled (statsRes : Promise Stats)
              (convsRes : Promise (list Conversation))
| FilterChange (value : jsstring)           (* the select's [onValueChange] *)
| ViewConversation (conv : Conversation)
| DialogOpenChange (open : bool).

(** One event, with the filter effect when one of its dependencies has
    changed: the array of a response is a new one each time, a filter
    value is compared as a string. *)
Definition step (e : Event) (s : AdminPage) : AdminPage :=
  match e with
  | Refresh => fetchData s
  | DataSettled statsRes convsRes =>
      match fetches s with
      | O => s
      | S n =>
          let r := promise_all statsRes convsRes in
          let s' := s |> set_fetches n |> fetchData_settled r in
          match r with
          | Fulfilled _ => filter_effect s'
          | Rejected _ => s'
          end
      end
  | FilterChange value =>
      if jseqb (alignmentFilter s) value then s
      else s |> setAlignmentFilter value |> filter_effect
  | ViewConversation conv => handleViewConversation conv s
  | DialogOpenChange open => s |> setIsDialogOpen open
  end.

Definition run (es : list Event) (s : AdminPage) : AdminPage :=
  fold_left (fun s e => step e s) es s.

(** The component after its first render and its two mount effects. *)
Definition mount : AdminPage :=
  filter_effect
    (fetchData
       {| stats := None; conversations := []; filteredConversations := [];
          alignmentFilter := str "all"; isLoading := true;
          selectedConversation := None; isDialogOpen := false;
          fetches := 0 |}).

End Admin.

(** A row with a user on the [bhakti] path, one with no user. *)
Definition admin_row (i : string) (u : option Admin.User) : Admin.Conversation :=
  {| Admin.id := str i; Admin.user := u; Admin.title := str "Seeking peace";
     Admin.messages := Some [a1; a2];
     Admin.updated_at := str "2026-02-16T10:00:00.000Z" |}.

Definition bhakti_user : Admin.User :=
  {| Admin.name := Some (str "Meera"); Admin.alignment := Some (str "bhakti") |}.

Definition sample_stats : Admin.Stats :=
  {| Admin.total_users := 2; Admin.total_conversations := 2;
     Admin.alignment_breakdown := Some [(str "bhakti", 1%N)] |}.

(** ** Navigation targets *)

(** The paths the pages navigate to. *)
Inductive Path :=
| path_home          (* [/] *)
| path_onboarding    (* [/onboarding] *)
| path_chat.         (* [/chat] *)

(** ** [WelcomePage] ([src/unnamed/part_003]) *)

Module Welcome.

(** [handleGetStarted], with [userId] as read from local storage. *)
Definition handleGetStarted (userId : option jsstring) : Path :=
  if truthy_opt userId then path_chat else path_onboarding.

End Welcome.

(** ** [OnboardingPage] ([src/unnamed/part_002]) *)

Module Onboarding.

Record FormData := {
  name : jsstring;
  alignment : jsstring;
  preferred_deity : jsstring;
  primary_goal : jsstring
}.

(** The body of [POST /users]. *)
Record UserBody := {
  body_alignment : jsstring;
  body_preferred_deity : option jsstring;
  body_primary_goal : jsstring;
  body_name : option jsstring
}.

(** The ids of [ALIGNMENTS], [DEITIES] and [GOALS], whose buttons call
    the select handlers. *)
Definition ALIGNMENTS : list jsstring :=
  [str "jnana"; str "bhakti"; str "karma"; str "universal"].

Definition DEITIES : list jsstring :=
  [str "krishna"; str "shiva"; str "devi"; str "rama"; str "ganesha";
   str "guru_nanak"; str "buddha"; str "universal_divine"].

Definition GOALS : list jsstring :=
  [str "peace"; str "guidance"; str "study"; str "healing"; str "purpose"].

Definition has_id (table : list jsstring) (i : jsstring) : bool :=
  existsb (jseqb i) table.

(** The component, the item [pocketGuruUserId] of local storage, and the
    path the router is on. *)
Record OnboardingPage := {
  step : Z;
  loading : bool;
  formData : FormData;
  toasts : list Toast;
  posts : list UserBody;                  (* awaited POST /users *)
  pocketGuruUserId : option jsstring;
  location : Path
}.

Definition setStep (v : Z) (s : OnboardingPage) : OnboardingPage :=
  {| step := v; loading := loading s; formData := formData s;
     toasts := toasts s; posts := posts s;
     pocketGuruUserId := pocketGuruUserId s; location := location s |}.

Definition setLoading (v : bool) (s : OnboardingPage) : OnboardingPage :=
  {| step := step s; loading := v; formData := formData s;
     toasts := toasts s; posts := posts s;
     pocketGuruUserId := pocketGuruUserId s; location := location s |}.

(** [setFormData(prev => f(prev))] *)
Definition setFormData (f : FormData -> FormData) (s : OnboardingPage)
  : OnboardingPage :=
  {| step := step s; loading := loading s; formData := f (formData s);
     toasts := toasts s; posts := posts s;
     pocketGuruUserId := pocketGuruUserId s; location := location s |}.

Definition toast (t : Toast) (s : OnboardingPage) : OnboardingPage :=
  {| step := step s; loading := loading s; formData := formData s;
     toasts := toasts s ++ [t]; posts := posts s;
     pocketGuruUserId := pocketGuruUserId s; location := location s |}.

Definition set_posts (v : list UserBody) (s : OnboardingPage)
  : OnboardingPage :=
  {| step := step s; loading := loading s; formData := formData s;
     toasts := toasts s; posts := v;
     pocketGuruUserId := pocketGuruUserId s; location := location s |}.

(** [localStorage.setItem("pocketGuruUserId", v)] *)
Definition setItem (v : jsstring) (s : OnboardingPage) : OnboardingPage :=
  {| step := step s; loading := loading s; formData := formData s;
     toasts := toasts s; posts := posts s;
     pocketGuruUserId := Some v; location := location s |}.

Definition navigate (p : Path) (s : OnboardingPage) : OnboardingPage :=
  {| step := step s; loading := loading s; formData := formData s;
     toasts := toasts s; posts := posts s;
     pocketGuruUserId := pocketGuruUserId s; location := p |}.

Definition handleAlignmentSelect (alignmentId : jsstring)
  (s : OnboardingPage) : OnboardingPage :=
  s |> setFormData (fun prev =>
         {| name := name prev; alignment := alignmentId;
            preferred_deity := preferred_deity prev;
            primary_goal := primary_goal prev |}).

Definition handleDeitySelect (deityId : jsstring) (s : OnboardingPage)
  : OnboardingPage :=
  s |> setFormData (fun prev =>
         {| name := name prev; alignment := alignment prev;
            preferred_deity := deityId;
            primary_goal := primary_goal prev |}).

Definition handleGoalSelect (goalId : jsstring) (s : OnboardingPage)
  : OnboardingPage :=
  s |> setFormData (fun prev =>
         {| name := name prev; alignment := alignment prev;
            preferred_deity := preferred_deity prev;
            primary_goal := goalId |}).

(** The name input's [onChange]. *)
Definition handleNameChange (value : jsstring) (s : OnboardingPage)
  : OnboardingPage :=
  s |> setFormData (fun prev =>
         {| name := value; alignment := alignment prev;
            preferred_deity := preferred_deity prev;
            primary_goal := primary_goal prev |}).

Definition handleNext (s : OnboardingPage) : OnboardingPage :=
  if Z.eqb (step s) 1 && negb (truthy (alignment (formData s)))
  then s |> toast (toast_error (str "Please select your spiritual path"))
  else if Z.ltb (step s) 3 then s |> setStep (step s + 1)%Z
  else s.

Definition handleBack (s : OnboardingPage) : OnboardingPage :=
  if Z.ltb 1 (step s) then s |> setStep (step s - 1)%Z else s.

(** [v || null] *)
Definition or_null (v : jsstring) : option jsstring :=
  if truthy v then Some v else None.

(** [handleComplete] up to its [await axios.post]. *)
Definition handleComplete (s : OnboardingPage) : OnboardingPage :=
  if negb (truthy (primary_goal (formData s)))
  then s |> toast (toast_error (str "Please select your primary goal"))
  else
    let body := {| body_alignment := alignment (formData s);
                   body_preferred_deity :=
                     or_null (preferred_deity (formData s));
                   body_primary_goal := primary_goal (formData s);
                   body_name := or_null (name (formData s)) |} in
    s |> setLoading true |> set_posts (posts s ++ [body]).

(** The text of the welcome notification; it ends with U+1F64F, two
    code units. *)
Definition welcome_text : jsstring :=
  str "Namaste! Welcome to your spiritual journey " ++ [55357%N; 56911%N].

(** [handleComplete] after its [await]; the payload is
    [response.data.id]. *)
Definition handleComplete_settled (r : Promise jsstring) (s : OnboardingPage)
  : OnboardingPage :=
  match r with
  | Fulfilled userId =>
      s |> setItem userId
        |> toast (toast_success welcome_text)
        |> navigate path_chat
        |> setLoading false
  | Rejected _ =>
      s |> toast (toast_error (str "Something went wrong. Please try again."))
        |> setLoading false
  end.

Inductive Event :=
| AlignmentSelect (alignmentId : jsstring)
| DeitySelect (deityId : jsstring)
| NameChange (value : jsstring)
| GoalSelect (goalId : jsstring)
| Next
| Back
| Cancel
| Complete
| UserSettled (i : nat) (r : Promise jsstring).

(** Whether the control of an event is on screen and enabled: the
    blocks [step === 1 && ...], [step === 2 && ...], [step === 3 && ...],
    the buttons [step > 1 ? Back : Cancel] and [step < 3 ? Next :
    Complete], the latter with [disabled={loading}]; nothing of the page
    is on screen once the router has left it.  A request settles
    whatever is on screen. *)
Definition rendered (e : Event) (s : OnboardingPage) : bool :=
  match e with
  | UserSettled _ _ => true
  | _ =>
      match location s with
      | path_onboarding =>
          match e with
          | AlignmentSelect i => Z.eqb (step s) 1 && has_id ALIGNMENTS i
          | DeitySelect i => Z.eqb (step s) 2 && has_id DEITIES i
          | NameChange _ => Z.eqb (step s) 2
          | GoalSelect i => Z.eqb (step s) 3 && has_id GOALS i
          | Next => Z.ltb (step s) 3
          | Back => Z.ltb 1 (step s)
          | Cancel => negb (Z.ltb 1 (step s))
          | Complete => negb (Z.ltb (step s) 3) && negb (loading s)
          | UserSettled _ _ => true
          end
      | _ => false
      end
  end.

Definition handle (e : Event) (s : OnboardingPage) : OnboardingPage :=
  match e with
  | AlignmentSelect i => handleAlignmentSelect i s
  | DeitySelect i => handleDeitySelect i s
  | NameChange v => handleNameChange v s
  | GoalSelect i => handleGoalSelect i s
  | Next => handleNext s
  | Back => handleBack s
  | Cancel => s |> navigate path_home
  | Complete => handleComplete s
  | UserSettled i r =>
      match nth_error (posts s) i with
      | Some _ =>
          s |> set_posts (remove_nth i (posts s))
            |> handleComplete_settled r
      | None => s
      end
  end.

Definition step_event (e : Event) (s : OnboardingPage) : OnboardingPage :=
  if rendered e s then handle e s else s.

Definition run (es : list Event) (s : OnboardingPage) : OnboardingPage :=
  fold_left (fun s e => step_event e s) es s.

(** The page as first rendered, with [stored] in local storage. *)
Definition mount (stored : option jsstring) : OnboardingPage :=
  {| step := 1%Z; loading := false;
     formData := {| name := []; alignment := [];
                    preferred_deity := []; primary_goal := [] |};
     toasts := []; posts := [];
     pocketGuruUserId := stored; location := path_onboarding |}.

(** What holds of a request body built from the controls. *)
Definition body_ok (b : UserBody) : Prop :=
  has_id ALIGNMENTS (body_alignment b) = true
  /\ has_id GOALS (body_primary_goal b) = true
  /\ match body_preferred_deity b with
     | Some d => has_id DEITIES d = true
     | None => True
     end
  /\ body_name b <> Some [].

(** The invariant of the wizard. *)
Definition wizard_inv (s : OnboardingPage) : Prop :=
  (1 <= step s <= 3)%Z
  /\ (alignment (formData s) = []
      \/ has_id ALIGNMENTS (alignment (formData s)) = true)
  /\ ((1 < step s)%Z -> has_id ALIGNMENTS (alignment (formData s)) = true)
  /\ (preferred_deity (formData s) = []
      \/ has_id DEITIES (preferred_deity (formData s)) = true)
  /\ (primary_goal (formData s) = []
      \/ has_id GOALS (primary_goal (formData s)) = true)
  /\ length (posts s) = (if loading s then 1 else 0)
  /\ Forall body_ok (posts s).

End Onboarding.

(** * Properties *)

(** ** Strings and lists *)

Lemma jseqb_eq (a b : jsstring) : jseqb a b = true <-> a = b.
Proof.
  revert b; induction a as [|x a IH]; intros [|y b]; simpl;
    try (split; [discriminate | congruence]); try tauto.
  rewrite andb_true_iff, N.eqb_eq, IH.
  split; [intros [-> ->]; reflexivity | intros E; inversion E; auto].
Qed.

Lemma jseqb_refl (a : jsstring) : jseqb a a = true.
Proof. apply jseqb_eq; reflexivity. Qed.

Lemma opt_eqb_eq (a b : option jsstring) : opt_eqb a b = true <-> a = b.
Proof.
  destruct a as [x|], b as [y|]; simpl;
    try (split; [discriminate | congruence]); try tauto.
  rewrite jseqb_eq; split; congruence.
Qed.

Lemma opt_eqb_refl (a : option jsstring) : opt_eqb a a = true.
Proof. apply opt_eqb_eq; reflexivity. Qed.

Lemma nth_error_last {A : Type} (l : list A) (x : A) :
  nth_error (l ++ [x]) (length l) = Some x.
Proof. induction l; simpl; auto. Qed.

Lemma remove_nth_last {A : Type} (l : list A) (x : A) :
  remove_nth (length l) (l ++ [x]) = l.
Proof.
  unfold remove_nth. induction l as [|a l IH]; simpl; auto.
  simpl in IH. rewrite IH. reflexivity.
Qed.

(** What [trimStart] returns does not begin with white space. *)
Lemma trimStart_head (s : jsstring) :
  match trimStart s with
  | [] => True
  | c :: _ => is_white_space c = false
  end.
Proof.
  induction s as [|c s IH]; simpl; auto.
  destruct (is_white_space c) eqn:E; auto.
Qed.

Lemma trimStart_fixed (c : N) (s : jsstring) :
  is_white_space c = false -> trimStart (c :: s) = c :: s.
Proof. intros E; simpl; rewrite E; reflexivity. Qed.

Lemma trimStart_snoc (l : jsstring) (c : N) :
  is_white_space c = false -> exists l', trimStart (l ++ [c]) = l' ++ [c].
Proof.
  intros E. induction l as [|x l [l' IH]]; simpl.
  - rewrite E. exists []; reflexivity.
  - destruct (is_white_space x).
    + exists l'; exact IH.
    + exists (x :: l); reflexivity.
Qed.

Lemma trimStart_idem (s : jsstring) : trimStart (trimStart s) = trimStart s.
Proof.
  pose proof (trimStart_head s) as H.
  destruct (trimStart s) as [|c r]; auto using trimStart_fixed.
Qed.

Lemma trimEnd_head (c : N) (r : jsstring) :
  is_white_space c = false -> exists r', trimEnd (c :: r) = c :: r'.
Proof.
  intros H. unfold trimEnd. simpl rev.
  destruct (trimStart_snoc (rev r) c H) as [l' E].
  rewrite E, rev_app_distr. simpl. eauto.
Qed.

Lemma trimEnd_idem (s : jsstring) : trimEnd (trimEnd s) = trimEnd s.
Proof. unfold trimEnd. rewrite rev_involutive, trimStart_idem. reflexivity. Qed.

(** [trim] is idempotent: a trimmed text trims to itself. *)
Lemma trim_idem (s : jsstring) : trim (trim s) = trim s.
Proof.
  unfold trim.
  pose proof (trimStart_head s) as H.
  destruct (trimStart s) as [|c r]; [reflexivity|].
  destruct (trimEnd_head c r H) as [r' E].
  rewrite E at 1. rewrite (trimStart_fixed c r' H), <- E.
  apply trimEnd_idem.
Qed.

Lemma count_transient_app (a b : list Message) :
  count_transient (a ++ b) = count_transient a + count_transient b.
Proof. unfold count_transient. rewrite filter_app, length_app. reflexivity. Qed.

Lemma count_confirmed_app (a b : list Message) :
  count_confirmed (a ++ b) = count_confirmed a + count_confirmed b.
Proof. unfold count_confirmed. rewrite filter_app, length_app. reflexivity. Qed.

Lemma count_transient_zero (ms : list Message) :
  count_transient ms = 0 <-> (forall m, In m ms -> is_transient m = false).
Proof.
  unfold count_transient. induction ms as [|m ms IH]; simpl.
  - split; [intros _ ? [] | reflexivity].
  - destruct (is_transient m) eqn:E; simpl.
    + split; [discriminate|]. intros H.
      specialize (H m (or_introl eq_refl)). congruence.
    + rewrite IH. split.
      * intros H x [<-|Hx]; auto.
      * intros H x Hx; apply H; auto.
Qed.

Lemma count_transient_durable (ms : list Message) :
  forallb (fun m => negb (is_transient m)) ms = true -> count_transient ms = 0.
Proof.
  intros H. apply count_transient_zero. intros m Hm.
  rewrite forallb_forall in H. specialize (H m Hm).
  destruct (is_transient m); auto; discriminate.
Qed.

(** The optimistic entry is transient. *)
Lemma temp_is_transient (now : N) (iso text : jsstring) :
  is_transient (make_tempUserMsg now iso text) = true.
Proof. reflexivity. Qed.

(** Filtering by the temporary id removes nothing when no entry has it. *)
Lemma without_absent (temp : Message) (ms : list Message) :
  (forall m, In m ms -> id m <> id temp) -> without temp ms = ms.
Proof.
  intros H. unfold without. induction ms as [|m ms IH]; simpl; auto.
  destruct (jseqb (id m) (id temp)) eqn:E; simpl.
  - apply jseqb_eq in E. exfalso; apply (H m); simpl; auto.
  - rewrite IH; auto. intros x Hx; apply H; simpl; auto.
Qed.

Lemma without_app (temp : Message) (a b : list Message) :
  without temp (a ++ b) = without temp a ++ without temp b.
Proof. unfold without. apply filter_app. Qed.

Lemma without_self (temp : Message) : without temp [temp] = [].
Proof. unfold without; simpl. rewrite jseqb_refl. reflexivity. Qed.

(** Filtering by the temporary id leaves no transient entry when every
    transient entry has that id. *)
Lemma without_clears (temp : Message) (ms : list Message) :
  (forall m, In m ms -> is_transient m = true -> id m = id temp) ->
  count_transient (without temp ms) = 0.
Proof.
  intros H. apply count_transient_zero. intros m Hm.
  unfold without in Hm. apply filter_In in Hm. destruct Hm as [Hin Hne].
  destruct (is_transient m) eqn:E; auto.
  rewrite (H m Hin E), jseqb_refl in Hne. discriminate.
Qed.

(** ** What the effects leave alone *)

Lemma effect_frame (s : ChatPage) :
  messages (conversationId_effect s) = messages s
  /\ message (conversationId_effect s) = message s
  /\ isLoading (conversationId_effect s) = isLoading s
  /\ chat_posts (conversationId_effect s) = chat_posts s
  /\ toasts (conversationId_effect s) = toasts s
  /\ conversations (conversationId_effect s) = conversations s
  /\ router (conversationId_effect s) = router s
  /\ conversation_deletes (conversationId_effect s) = conversation_deletes s.
Proof.
  unfold conversationId_effect.
  destruct (conversationId s) as [c|]; [|tauto].
  destruct (truthy c && negb (opt_eqb (Some c) (currentConversationId s)));
    cbn; tauto.
Qed.

Lemma navigate_effect_frame (s : ChatPage) :
  messages (navigate_effect s) = messages s
  /\ message (navigate_effect s) = message s
  /\ isLoading (navigate_effect s) = isLoading s
  /\ chat_posts (navigate_effect s) = chat_posts s
  /\ toasts (navigate_effect s) = toasts s
  /\ conversations (navigate_effect s) = conversations s
  /\ router (navigate_effect s) = router s
  /\ conversation_deletes (navigate_effect s) = conversation_deletes s.
Proof.
  unfold navigate_effect.
  destruct (pocketGuruUserId s) as [uid|]; cbn [truthy_opt];
    [destruct (truthy uid)|]; cbn; tauto.
Qed.

(** The [[navigate]] effect issues no history request and leaves the
    active conversation id alone. *)
Lemma navigate_effect_keeps (s : ChatPage) :
  currentConversationId (navigate_effect s) = currentConversationId s
  /\ conversation_gets (navigate_effect s) = conversation_gets s
  /\ isSidebarOpen (navigate_effect s) = isSidebarOpen s.
Proof.
  unfold navigate_effect.
  destruct (pocketGuruUserId s) as [uid|]; cbn [truthy_opt];
    [destruct (truthy uid)|]; cbn; tauto.
Qed.

(** With a user id in local storage the two effects write different
    cells and read none the other writes: the order in which they run does
    not matter. *)
Lemma effects_commute (s : ChatPage) :
  truthy_opt (pocketGuruUserId s) = true ->
  navigate_effect (conversationId_effect s)
  = conversationId_effect (navigate_effect s).
Proof.
  intros H. unfold navigate_effect, conversationId_effect.
  destruct (pocketGuruUserId s) as [uid|] eqn:E; [|discriminate H].
  destruct (conversationId s) as [c|] eqn:Ec; fields; rewrite ?E, ?H, ?Ec;
    fields; rewrite ?E, ?Ec; [|reflexivity].
  destruct (truthy c && negb (opt_eqb (Some c) (currentConversationId s)));
    fields; rewrite ?E, ?H; reflexivity.
Qed.

Lemma effects_frame (s s' : ChatPage) :
  messages (effects s s') = messages s'
  /\ message (effects s s') = message s'
  /\ isLoading (effects s s') = isLoading s'
  /\ chat_posts (effects s s') = chat_posts s'
  /\ toasts (effects s s') = toasts s'
  /\ conversations (effects s s') = conversations s'
  /\ router (effects s s') = router s'
  /\ conversation_deletes (effects s s') = conversation_deletes s'.
Proof.
  unfold effects.
  assert (H1 : forall f : ChatPage -> ChatPage,
             (f = (fun x => x) \/ f = conversationId_effect) ->
             messages (f s') = messages s'
             /\ message (f s') = message s'
             /\ isLoading (f s') = isLoading s'
             /\ chat_posts (f s') = chat_posts s'
             /\ toasts (f s') = toasts s'
             /\ conversations (f s') = conversations s'
             /\ router (f s') = router s'
             /\ conversation_deletes (f s') = conversation_deletes s').
  { intros f [->| ->]; [tauto | apply effect_frame]. }
  destruct (opt_eqb (conversationId s) (conversationId s')).
  - destruct (jseqb (pathname s) (pathname s')); [tauto|].
    apply navigate_effect_frame.
  - destruct (jseqb (pathname s) (pathname s')); [apply effect_frame|].
    destruct (navigate_effect_frame (conversationId_effect s'))
      as (A1 & A2 & A3 & A4 & A5 & A6 & A7 & A8).
    destruct (effect_frame s') as (B1 & B2 & B3 & B4 & B5 & B6 & B7 & B8).
    rewrite A1, A2, A3, A4, A5, A6, A7, A8. tauto.
Qed.

Lemma step_frame (e : Event) (s : ChatPage) :
  messages (step e s) = messages (handle e s)
  /\ message (step e s) = message (handle e s)
  /\ isLoading (step e s) = isLoading (handle e s)
  /\ chat_posts (step e s) = chat_posts (handle e s)
  /\ toasts (step e s) = toasts (handle e s)
  /\ conversations (step e s) = conversations (handle e s)
  /\ router (step e s) = router (handle e s)
  /\ conversation_deletes (step e s) = conversation_deletes (handle e s).
Proof. unfold step. apply effects_frame. Qed.

(** When a transition changes neither the pathname nor the parameter,
    no effect runs. *)
Lemma effects_idle (s s' : ChatPage) :
  pathname s' = pathname s -> conversationId s' = conversationId s ->
  effects s s' = s'.
Proof.
  intros Hp Hc. unfold effects. rewrite Hp, Hc, opt_eqb_refl.
  replace (jseqb (pathname s) (pathname s)) with true; [reflexivity|].
  symmetry. apply jseqb_eq. reflexivity.
Qed.

(** The effect does nothing once [currentConversationId] is the
    parameter, and nothing on the route without parameter. *)
Lemma effect_in_sync (s : ChatPage) :
  (forall c, conversationId s = Some c -> currentConversationId s = Some c) ->
  conversationId_effect s = s.
Proof.
  intros H. unfold conversationId_effect.
  destruct (conversationId s) as [c|] eqn:E; auto.
  rewrite (H c eq_refl), opt_eqb_refl, andb_false_r. reflexivity.
Qed.

(** The router is the same all along. *)
Lemma router_handle (e : Event) (s : ChatPage) : router (handle e s) = router s.
Proof.
  destruct e as [text|now iso|i r| |c|i r|i r|i r|c|i r|b|p c]; cbn [handle];
    try reflexivity.
  - unfold handleSendMessage.
    destruct (negb (truthy (trim (message s))) || isLoading s); reflexivity.
  - destruct (nth_error (chat_posts s) i) as [k|]; [|reflexivity].
    destruct r as [data|err]; unfold handleSendMessage_settled;
      [destruct (negb (truthy_opt (send_currentConversationId k)))|];
      reflexivity.
  - destruct (nth_error (conversation_gets s) i); [destruct r|]; reflexivity.
  - destruct (nth_error (conversations_gets s) i); [destruct r|]; reflexivity.
  - destruct (nth_error (user_gets s) i); [destruct r|]; reflexivity.
  - destruct (nth_error (conversation_deletes s) i) as [k|]; [|reflexivity].
    destruct r as [u|err]; unfold handleDeleteConversation_settled;
      [destruct (opt_eqb (Some (del_convId k)) (del_currentConversationId k))|];
      reflexivity.
Qed.

Lemma router_step (e : Event) (s : ChatPage) : router (step e s) = router s.
Proof.
  destruct (step_frame e s) as (_ & _ & _ & _ & _ & _ & H & _).
  rewrite H. apply router_handle.
Qed.

Lemma router_run (es : list Event) (s : ChatPage) : router (run es s) = router s.
Proof.
  revert s. induction es as [|e es IH]; intros s; [reflexivity|].
  change (run (e :: es) s) with (run es (step e s)).
  rewrite IH. apply router_step.
Qed.

(** ** The single-send invariant is kept *)

Lemma send_inv_ext (s s' : ChatPage) :
  messages s' = messages s -> isLoading s' = isLoading s ->
  chat_posts s' = chat_posts s -> send_inv s -> send_inv s'.
Proof. unfold send_inv. intros -> -> ->. auto. Qed.

Lemma send_inv_bound (s : ChatPage) :
  send_inv s -> count_transient (messages s) <= 1.
Proof.
  unfold send_inv. destruct (isLoading s).
  - intros (k & _ & _ & H); exact H.
  - intros [_ ->]; lia.
Qed.

Lemma send_inv_pending (s : ChatPage) :
  send_inv s -> 1 <= count_transient (messages s) -> isLoading s = true.
Proof.
  unfold send_inv. destruct (isLoading s); auto.
  intros [_ ->]; lia.
Qed.

Lemma send_inv_mount (r : Router) (param : option jsstring)
  (stored : jsstring) :
  send_inv (mount r param stored).
Proof.
  unfold mount.
  match goal with |- send_inv (navigate_effect (conversationId_effect ?s)) =>
    destruct (navigate_effect_frame (conversationId_effect s))
      as (Hm' & _ & Hl' & Hc' & _);
    destruct (effect_frame s) as (Hm & _ & Hl & Hc & _);
    apply (send_inv_ext s _ (eq_trans Hm' Hm) (eq_trans Hl' Hl)
             (eq_trans Hc' Hc)) end.
  unfold send_inv; fields. auto.
Qed.

Lemma send_inv_handle (e : Event) (s : ChatPage) :
  server_ok e = true -> send_inv s -> send_inv (handle e s).
Proof.
  intros Hok Hinv.
  destruct e as [text|now iso|i r| |c|i r|i r|i r|c|i r|b|p c]; cbn [handle].
  - (* Change *) exact Hinv.
  - (* Submit *)
    unfold handleSendMessage.
    destruct (negb (truthy (trim (message s))) || isLoading s) eqn:G;
      [exact Hinv|].
    apply orb_false_iff in G. destruct G as [_ G].
    unfold send_inv in *. rewrite G in Hinv. destruct Hinv as [Hc Hz].
    fields. rewrite Hc. eexists; split; [reflexivity|]. split.
    + intros m Hm Ht. apply in_app_or in Hm. destruct Hm as [Hm|[<-|[]]].
      * rewrite count_transient_zero in Hz. rewrite (Hz m Hm) in Ht.
        discriminate.
      * reflexivity.
    + rewrite count_transient_app, Hz. cbn. lia.
  - (* ChatSettled *)
    destruct (nth_error (chat_posts s) i) as [k|] eqn:E; [|exact Hinv].
    unfold send_inv in Hinv. destruct (isLoading s) eqn:L.
    + destruct Hinv as (k0 & Hc & Hid & _).
      rewrite Hc in E. destruct i as [|i]; [|destruct i; discriminate].
      cbn in E. injection E as <-.
      assert (Hrm : remove_nth 0 (chat_posts s) = [])
        by (rewrite Hc; reflexivity).
      destruct r as [data|err]; unfold send_inv.
      * cbn [server_ok] in Hok. apply andb_true_iff in Hok.
        destruct Hok as [Hm Hg].
        apply negb_true_iff in Hm, Hg.
        unfold handleSendMessage_settled.
        destruct (negb (truthy_opt (send_currentConversationId k0)));
          fields; rewrite Hrm; (split; [reflexivity|]);
          rewrite count_transient_app, (without_clears _ _ Hid);
          unfold count_transient; cbn [filter app length plus];
          rewrite Hm, Hg; reflexivity.
      * fields. rewrite Hrm. split; [reflexivity|].
        apply without_clears; exact Hid.
    + destruct Hinv as [Hc _]. rewrite Hc in E. destruct i; discriminate.
  - (* NewConversation *)
    unfold send_inv in *. fields. destruct (isLoading s).
    + destruct Hinv as (k & Hc & _). exists k. split; [exact Hc|].
      split; [intros m []|cbn; lia].
    + destruct Hinv as [Hc _]. split; [exact Hc|reflexivity].
  - (* SelectConversation *) exact Hinv.
  - (* ConversationSettled *)
    destruct (nth_error (conversation_gets s) i); [|exact Hinv].
    destruct r as [data|err]; [|exact Hinv].
    cbn [server_ok] in Hok.
    assert (Hz : count_transient
                   match data_messages data with Some ms => ms | None => [] end
                 = 0).
    { destruct (data_messages data); [|reflexivity].
      apply count_transient_durable; exact Hok. }
    unfold send_inv in *. fields. destruct (isLoading s).
    + destruct Hinv as (k & Hc & _). exists k. split; [exact Hc|]. split.
      * intros m Hm Ht. rewrite count_transient_zero in Hz.
        rewrite (Hz m Hm) in Ht. discriminate.
      * rewrite Hz; lia.
    + destruct Hinv as [Hc _]. split; [exact Hc|exact Hz].
  - (* ConversationsSettled *)
    destruct (nth_error (conversations_gets s) i); [|exact Hinv].
    destruct r; exact Hinv.
  - (* UserSettled *)
    destruct (nth_error (user_gets s) i); [|exact Hinv].
    destruct r; exact Hinv.
  - (* DeleteConversation *) exact Hinv.
  - (* DeleteSettled *)
    destruct (nth_error (conversation_deletes s) i) as [k|]; [|exact Hinv].
    destruct r as [u|err]; [|exact Hinv].
    unfold handleDeleteConversation_settled.
    destruct (opt_eqb (Some (del_convId k)) (del_currentConversationId k));
      [|exact Hinv].
    unfold send_inv in *. fields. destruct (isLoading s).
    + destruct Hinv as (k' & Hc & _). exists k'. split; [exact Hc|].
      split; [intros m []|cbn; lia].
    + destruct Hinv as [Hc _]. split; [exact Hc|reflexivity].
  - (* SidebarOpenChange *) exact Hinv.
  - (* RouteChange *) exact Hinv.
Qed.

Lemma send_inv_step (e : Event) (s : ChatPage) :
  server_ok e = true -> send_inv s -> send_inv (step e s).
Proof.
  intros Hok Hinv.
  destruct (step_frame e s) as (Hm & _ & Hl & Hc & _).
  apply (send_inv_ext (handle e s) _ Hm Hl Hc).
  apply send_inv_handle; assumption.
Qed.

Lemma send_inv_run (es : list Event) (s : ChatPage) :
  forallb server_ok es = true -> send_inv s -> send_inv (run es s).
Proof.
  revert s. induction es as [|e es IH]; intros s Hok Hinv; [exact Hinv|].
  cbn in Hok. apply andb_true_iff in Hok. destruct Hok as [He Hes].
  cbn. apply IH; [exact Hes|]. apply send_inv_step; assumption.
Qed.

(** C1: in every state reached from the mounted component, whatever the
    events (the optimistic append of a send, its confirmation, its
    rollback, a history load, a reset, ...), as long as the server assigns
    no [temp-] id, the transcript holds no or one transient entry. *)
Theorem pending_at_most_one
  (r : Router) (param : option jsstring) (stored : jsstring)
  (es : list Event) :
  forallb server_ok es = true ->
  count_transient (messages (run es (mount r param stored))) <= 1.
Proof.
  intros Hok. apply send_inv_bound, send_inv_run; [exact Hok|].
  apply send_inv_mount.
Qed.

Lemma pending_at_most_one_witness :
  forallb server_ok
    [Change (str "What is dharma?"); Submit 1771242154000 sample_iso;
     SelectConversation (str "B");
     ConversationSettled 1 (sample_history [b1])] = true
  /\ count_transient
       (messages
          (run [Change (str "What is dharma?"); Submit 1771242154000 sample_iso;
                SelectConversation (str "B");
                ConversationSettled 1 (sample_history [b1])]
               (mount (router_at "/chat/A") (Some (str "A")) (str "u1")))) <= 1.
Proof.
  split; [(vm_compute; reflexivity)|].
  apply (pending_at_most_one (router_at "/chat/A") (Some (str "A")) (str "u1")).
  (vm_compute; reflexivity).
Defined.

(** ** One step of each handler *)

(** A submit that passes the guard: the buffer is cleared, the flag is
    set, the optimistic entry is appended and the request is awaited. *)
Lemma submit_accepted (now : N) (iso : jsstring) (s : ChatPage) :
  truthy (trim (message s)) = true -> isLoading s = false ->
  step (Submit now iso) s
  = s |> setMessage []
      |> setIsLoading true
      |> setMessages (fun prev =>
           prev ++ [make_tempUserMsg now iso (trim (message s))])
      |> set_chat_posts (chat_posts s ++ [send_closure now iso s]).
Proof.
  intros Ht Hl. unfold step. cbn [handle]. unfold handleSendMessage.
  rewrite Ht, Hl. cbn [negb orb fst]. apply effects_idle; reflexivity.
Qed.

(** A submit stopped by the guard returns at once and changes nothing. *)
Lemma submit_ignored (now : N) (iso : jsstring) (s : ChatPage) :
  negb (truthy (trim (message s))) || isLoading s = true ->
  handleSendMessage now iso s = (s, Returned)
  /\ step (Submit now iso) s = s.
Proof.
  intros G. unfold step. cbn [handle]. unfold handleSendMessage.
  rewrite G. cbn [fst]. split; [reflexivity|].
  apply effects_idle; reflexivity.
Qed.

(** The request of a send is fulfilled: what does not depend on the
    router. *)
Lemma chat_fulfilled (s : ChatPage) (i : nat) (k : SendClosure)
  (data : ChatData) :
  nth_error (chat_posts s) i = Some k ->
  let s' := step (ChatSettled i (Fulfilled data)) s in
  messages s'
  = without (tempUserMsg k) (messages s)
    ++ [data_message data; guru_response data]
  /\ message s' = message s
  /\ isLoading s' = false
  /\ chat_posts s' = remove_nth i (chat_posts s)
  /\ toasts s' = toasts s.
Proof.
  intros H.
  destruct (step_frame (ChatSettled i (Fulfilled data)) s)
    as (H1 & H2 & H3 & H4 & H5 & _).
  cbv zeta. rewrite H1, H2, H3, H4, H5. cbn [handle]. rewrite H.
  unfold handleSendMessage_settled.
  destruct (truthy_opt (send_currentConversationId k)); cbn [negb]; fields;
    tauto.
Qed.

(** The request of a send made on a conversation is fulfilled: no
    navigation, the active conversation is left as it is and only the
    sidebar list is requested. *)
Lemma chat_fulfilled_kept (s : ChatPage) (i : nat) (k : SendClosure)
  (data : ChatData) :
  nth_error (chat_posts s) i = Some k ->
  truthy_opt (send_currentConversationId k) = true ->
  let s' := step (ChatSettled i (Fulfilled data)) s in
  currentConversationId s' = currentConversationId s
  /\ conversationId s' = conversationId s
  /\ pathname s' = pathname s
  /\ conversation_gets s' = conversation_gets s
  /\ conversations_gets s' = conversations_gets s ++ [send_userId k]
  /\ user_gets s' = user_gets s.
Proof.
  intros H Hk. cbv zeta. unfold step. cbn [handle]. rewrite H.
  unfold handleSendMessage_settled. rewrite Hk. cbn [negb].
  rewrite effects_idle by reflexivity. fields. tauto.
Qed.

(** The request of a send made on a draft is fulfilled, with an id the
    router leaves as written: the id becomes the active one and no history
    is requested. *)
Lemma chat_fulfilled_adopted (s : ChatPage) (i : nat) (k : SendClosure)
  (data : ChatData) :
  nth_error (chat_posts s) i = Some k ->
  truthy_opt (send_currentConversationId k) = false ->
  binds (router s) (conversation_id data) = true ->
  let s' := step (ChatSettled i (Fulfilled data)) s in
  currentConversationId s' = Some (conversation_id data)
  /\ conversation_gets s' = conversation_gets s.
Proof.
  intros H Hk Hb. cbv zeta. unfold step. cbn [handle]. rewrite H.
  unfold handleSendMessage_settled. rewrite Hk. cbn [negb].
  unfold binds in Hb. apply opt_eqb_eq in Hb.
  unfold effects.
  match goal with |- context [conversationId_effect ?t] =>
    assert (E : conversationId_effect t = t) end.
  { apply effect_in_sync. fields. rewrite Hb. intros c Hc.
    destruct (truthy (conversation_id data)); congruence. }
  rewrite E.
  match goal with |- context [if ?c then ?t else ?t] =>
    replace (if c then t else t) with t by (destruct c; reflexivity) end.
  destruct (jseqb _ _).
  - fields. tauto.
  - match goal with |- context [navigate_effect ?t] =>
      destruct (navigate_effect_keeps t) as (K1 & K2 & _) end.
    rewrite K1, K2. fields. tauto.
Qed.

(** The request of a send is rejected. *)
Lemma chat_rejected (s : ChatPage) (i : nat) (k : SendClosure)
  (err : jsstring) :
  nth_error (chat_posts s) i = Some k ->
  let s' := step (ChatSettled i (Rejected err)) s in
  messages s' = without (tempUserMsg k) (messages s)
  /\ message s' = userMessage k
  /\ isLoading s' = false
  /\ chat_posts s' = remove_nth i (chat_posts s)
  /\ toasts s'
     = toasts s ++ [toast_error (str "Failed to send message. Please try again.")]
  /\ conversation_gets s' = conversation_gets s
  /\ conversations_gets s' = conversations_gets s
  /\ currentConversationId s' = currentConversationId s
  /\ conversationId s' = conversationId s.
Proof.
  intros H. cbv zeta. unfold step. cbn [handle]. rewrite H.
  unfold handleSendMessage_settled.
  rewrite effects_idle by reflexivity. fields. tauto.
Qed.

(** Selecting a conversation whose id the router leaves as written: the
    [[conversationId]] effect finds [currentConversationId] equal to the
    parameter, so the handler's request is the only history request. *)
Lemma select_bound (convId : jsstring) (s : ChatPage) :
  binds (router s) convId = true ->
  let s' := step (SelectConversation convId) s in
  conversation_gets s' = conversation_gets s ++ [convId]
  /\ currentConversationId s' = Some convId
  /\ isSidebarOpen s' = false.
Proof.
  intros Hb. cbv zeta. unfold step. cbn [handle].
  unfold binds in Hb. apply opt_eqb_eq in Hb.
  unfold effects.
  match goal with |- context [conversationId_effect ?t] =>
    assert (E : conversationId_effect t = t) end.
  { apply effect_in_sync. unfold handleSelectConversation. fields.
    rewrite Hb. intros c Hc. destruct (truthy convId); congruence. }
  rewrite E.
  match goal with |- context [if ?c then ?t else ?t] =>
    replace (if c then t else t) with t by (destruct c; reflexivity) end.
  destruct (jseqb _ _).
  - fields. tauto.
  - match goal with |- context [navigate_effect ?t] =>
      destruct (navigate_effect_keeps t) as (K1 & K2 & K3) end.
    rewrite K1, K2, K3. fields. tauto.
Qed.

(** What selecting a conversation leaves alone, whatever the router
    makes of the id. *)
Lemma select_frame (convId : jsstring) (s : ChatPage) :
  let s' := step (SelectConversation convId) s in
  messages s' = messages s
  /\ message s' = message s
  /\ isLoading s' = isLoading s
  /\ chat_posts s' = chat_posts s
  /\ toasts s' = toasts s
  /\ router s' = router s.
Proof.
  destruct (step_frame (SelectConversation convId) s)
    as (H1 & H2 & H3 & H4 & H5 & _ & H7 & _).
  cbv zeta. rewrite H1, H2, H3, H4, H5, H7. cbn [handle]. fields. tauto.
Qed.

(** A history load that is fulfilled replaces the transcript. *)
Lemma conversation_fulfilled (s : ChatPage) (i : nat) (c : jsstring)
  (data : ConversationData) :
  nth_error (conversation_gets s) i = Some c ->
  step (ConversationSettled i (Fulfilled data)) s
  = s |> set_conversation_gets (remove_nth i (conversation_gets s))
      |> setMessages (fun _ =>
           match data_messages data with Some ms => ms | None => [] end).
Proof.
  intros H. unfold step. cbn [handle]. rewrite H.
  apply effects_idle; reflexivity.
Qed.

(** The deletion request settles without the view being reset: it was
    rejected, or the conversation was not the active one when the deletion
    was asked for. *)
Lemma delete_settled (s : ChatPage) (i : nat) (k : DeleteClosure)
  (r : Promise unit) :
  nth_error (conversation_deletes s) i = Some k ->
  (exists err, r = Rejected err)
  \/ opt_eqb (Some (del_convId k)) (del_currentConversationId k) = false ->
  step (DeleteSettled i r) s
  = s |> set_conversation_deletes (remove_nth i (conversation_deletes s))
      |> handleDeleteConversation_settled k r.
Proof.
  intros H Hr. unfold step. cbn [handle]. rewrite H.
  apply effects_idle; unfold handleDeleteConversation_settled;
    destruct r as [u|err];
    try reflexivity;
    (destruct Hr as [[err' Hr]|Hr]; [discriminate Hr|rewrite Hr; reflexivity]).
Qed.

(** The deletion of the conversation that was active when it was asked
    for is fulfilled. *)
Lemma delete_settled_active (s : ChatPage) (i : nat) (k : DeleteClosure) :
  nth_error (conversation_deletes s) i = Some k ->
  opt_eqb (Some (del_convId k)) (del_currentConversationId k) = true ->
  let s' := step (DeleteSettled i (Fulfilled tt)) s in
  currentConversationId s' = None
  /\ conversationId s' = None
  /\ messages s' = [].
Proof.
  intros H Hk.
  destruct (step_frame (DeleteSettled i (Fulfilled tt)) s) as (H1 & _).
  cbv zeta. rewrite H1. unfold step. cbn [handle]. rewrite H.
  unfold handleDeleteConversation_settled. rewrite Hk.
  split; [|split; [|reflexivity]].
  - unfold effects.
    match goal with |- context [conversationId_effect ?t] =>
      assert (E : conversationId_effect t = t)
        by (apply effect_in_sync; fields; discriminate) end.
    rewrite E.
    match goal with |- context [if ?c then ?t else ?t] =>
      replace (if c then t else t) with t by (destruct c; reflexivity) end.
    destruct (jseqb _ _); [reflexivity|].
    match goal with |- context [navigate_effect ?t] =>
      destruct (navigate_effect_keeps t) as (K1 & _) end.
    rewrite K1. reflexivity.
  - unfold effects.
    match goal with |- context [conversationId_effect ?t] =>
      assert (E : conversationId_effect t = t)
        by (apply effect_in_sync; fields; discriminate) end.
    rewrite E.
    match goal with |- context [if ?c then ?t else ?t] =>
      replace (if c then t else t) with t by (destruct c; reflexivity) end.
    destruct (jseqb _ _); [reflexivity|].
    unfold navigate_effect. fields.
    destruct (pocketGuruUserId s) as [uid|]; cbn [truthy_opt];
      [destruct (truthy uid)|]; reflexivity.
Qed.

(** An entry with a server id does not have the temporary id. *)
Lemma durable_not_temp (now : N) (m : Message) :
  is_transient m = false -> id m <> temp_id now.
Proof.
  intros H E. unfold is_transient in H. rewrite E in H. discriminate.
Qed.

Lemma durable_all_not_temp (now : N) (ms : list Message) :
  count_transient ms = 0 -> forall m, In m ms -> id m <> temp_id now.
Proof.
  intros H m Hm. apply durable_not_temp.
  rewrite count_transient_zero in H. auto.
Qed.

(** ** Navigation while a send is awaited *)




(** ** A send that fails *)

(** What the transcript is once the optimistic entry is appended. *)
Lemma submit_messages (now : N) (iso : jsstring) (s : ChatPage) :
  truthy (trim (message s)) = true -> isLoading s = false ->
  messages (step (Submit now iso) s)
  = messages s ++ [make_tempUserMsg now iso (trim (message s))].
Proof. intros Ht Hl. rewrite submit_accepted by assumption. reflexivity. Qed.

(** Filtering the optimistic entry out of the transcript it was appended
    to gives the transcript back. *)
Lemma without_appended (now : N) (iso text : jsstring) (ms : list Message) :
  count_transient ms = 0 ->
  without (make_tempUserMsg now iso text)
          (ms ++ [make_tempUserMsg now iso text]) = ms.
Proof.
  intros H. rewrite without_app, without_self, app_nil_r.
  apply without_absent. apply (durable_all_not_temp now ms H).
Qed.

(** C3, as stated, fails on two counts.  The buffer gets the trimmed
    text back, not the text as it was typed; and when the user selects
    another conversation whose history loads before the request is
    rejected, the transcript after the failure is that history, not the
    transcript the optimistic entry was appended to. *)
Lemma failed_send_differs_from_before :
  (let s := run [Change (str "  What is dharma?  ");
                 Submit 1771242154000 sample_iso;
                 ChatSettled 0 (Rejected (str "Network Error"))] viewing_A in
   message s = str "What is dharma?"
   /\ message s <> str "  What is dharma?  ")
  /\ (let s := run [Change (str "What is dharma?");
                    Submit 1771242154000 sample_iso;
                    SelectConversation (str "B");
                    ConversationSettled 0 (sample_history [b1]);
                    ChatSettled 0 (Rejected (str "Network Error"))] viewing_A in
      messages viewing_A = [a1; a2]
      /\ messages s = [b1]
      /\ messages s <> messages viewing_A).
Proof. vm_compute. repeat split; discriminate. Qed.

(** C3, amended: when a send fails and the transcript is, when the
    request is rejected, still the one the optimistic append left (no
    history load or reset replaced it meanwhile), the transcript after
    the failure handler is the transcript before the append, the input
    buffer holds the trimmed text that was sent, and an error
    notification is shown. *)
Theorem failed_send_rolls_back
  (s : ChatPage) (now : N) (iso : jsstring) (evs : list Event) (i : nat)
  (err : jsstring) :
  truthy (trim (message s)) = true ->
  isLoading s = false ->
  count_transient (messages s) = 0 ->
  let s1 := step (Submit now iso) s in
  let s2 := run evs s1 in
  messages s2 = messages s1 ->
  nth_error (chat_posts s2) i = Some (send_closure now iso s) ->
  let s3 := step (ChatSettled i (Rejected err)) s2 in
  messages s3 = messages s
  /\ message s3 = trim (message s)
  /\ toasts s3
     = toasts s2
       ++ [toast_error (str "Failed to send message. Please try again.")].
Proof.
  intros Ht Hl Hz s1 s2 Hsame Hk s3.
  destruct (chat_rejected s2 i (send_closure now iso s) err Hk)
    as (Hm & Hb & _ & _ & Hto & _).
  fold s3 in Hm, Hb, Hto. repeat split.
  - rewrite Hm, Hsame. unfold s1. rewrite submit_messages by assumption.
    apply without_appended; exact Hz.
  - rewrite Hb. reflexivity.
  - exact Hto.
Qed.

Lemma failed_send_rolls_back_witness :
  let s := step (Change (str "  What is dharma?  ")) viewing_A in
  let evs := [DeleteConversation (str "B"); SidebarOpenChange true] in
  let s1 := step (Submit 1771242154000 sample_iso) s in
  let s2 := run evs s1 in
  let s3 := step (ChatSettled 0 (Rejected (str "Network Error"))) s2 in
  (truthy (trim (message s)) = true
   /\ isLoading s = false
   /\ count_transient (messages s) = 0
   /\ messages s2 = messages s1
   /\ nth_error (chat_posts s2) 0
      = Some (send_closure 1771242154000 sample_iso s))
  /\ messages s3 = messages s
  /\ message s3 = trim (message s)
  /\ toasts s3
     = toasts s2
       ++ [toast_error (str "Failed to send message. Please try again.")].
Proof.
  intros s evs s1 s2 s3.
  split; [(vm_compute; repeat split)|].
  apply (failed_send_rolls_back s 1771242154000 sample_iso evs 0
           (str "Network Error")); (vm_compute; reflexivity).
Defined.

(** ** A send that succeeds *)

(** C4, as stated, fails: when the user selects another conversation
    whose history loads before the response arrives, the reconciliation
    finds no transient entry to remove, and the final transcript has three
    confirmed entries where the transcript before the send had two. *)
Lemma successful_send_counts_differ :
  let s := step (Change (str "What is dharma?")) viewing_A in
  let s2 := run [Submit 1771242154000 sample_iso;
                 SelectConversation (str "B");
                 ConversationSettled 0 (sample_history [b1])] s in
  let s3 := step (ChatSettled 0 (sample_reply "A")) s2 in
  count_confirmed (messages s) = 2
  /\ count_transient (messages s2) = 0
  /\ messages s3 = [b1; m1; g1]
  /\ count_confirmed (messages s3) = 3
  /\ count_confirmed (messages s3) <> count_confirmed (messages s) + 2.
Proof. vm_compute. repeat split. discriminate. Qed.

(** C4, amended: when a send succeeds and the transcript is, when the
    response arrives, still the one the optimistic append left (no
    history load or reset replaced it meanwhile), one update of the
    transcript removes the transient entry and appends the confirmed user
    message and the reply: the final transcript is the transcript before
    the send followed by these two, it has one transient entry fewer than
    after the optimistic append and two confirmed entries more than before
    the send. *)
Theorem successful_send_reconciles
  (s : ChatPage) (now : N) (iso : jsstring) (evs : list Event) (i : nat)
  (data : ChatData) :
  truthy (trim (message s)) = true ->
  isLoading s = false ->
  count_transient (messages s) = 0 ->
  is_transient (data_message data) = false ->
  is_transient (guru_response data) = false ->
  let s1 := step (Submit now iso) s in
  let s2 := run evs s1 in
  messages s2 = messages s1 ->
  nth_error (chat_posts s2) i = Some (send_closure now iso s) ->
  let s3 := step (ChatSettled i (Fulfilled data)) s2 in
  messages s3 = messages s ++ [data_message data; guru_response data]
  /\ count_transient (messages s3) + 1 = count_transient (messages s1)
  /\ count_confirmed (messages s3) = count_confirmed (messages s) + 2.
Proof.
  intros Ht Hl Hz Hm Hg s1 s2 Hsame Hk s3.
  destruct (chat_fulfilled s2 i (send_closure now iso s) data Hk)
    as (Hms & _).
  fold s3 in Hms.
  assert (E : messages s3
              = messages s ++ [data_message data; guru_response data]).
  { rewrite Hms, Hsame. unfold s1. rewrite submit_messages by assumption.
    cbn [send_closure tempUserMsg]. rewrite without_appended by exact Hz.
    reflexivity. }
  split; [exact E|]. rewrite E. unfold s1.
  rewrite submit_messages by assumption.
  rewrite !count_transient_app, count_confirmed_app, Hz.
  unfold count_transient, count_confirmed. cbn [filter].
  rewrite Hm, Hg, temp_is_transient. cbn. split; reflexivity.
Qed.

Lemma successful_send_reconciles_witness :
  let s := step (Change (str "What is dharma?")) viewing_A in
  let data := {| conversation_id := str "A"; data_message := m1;
                 guru_response := g1 |} in
  let evs := [ConversationsSettled 0 (Rejected (str "timeout"))] in
  let s1 := step (Submit 1771242154000 sample_iso) s in
  let s2 := run evs s1 in
  let s3 := step (ChatSettled 0 (Fulfilled data)) s2 in
  (truthy (trim (message s)) = true
   /\ isLoading s = false
   /\ count_transient (messages s) = 0
   /\ is_transient (data_message data) = false
   /\ is_transient (guru_response data) = false
   /\ messages s2 = messages s1
   /\ nth_error (chat_posts s2) 0
      = Some (send_closure 1771242154000 sample_iso s))
  /\ messages s3 = messages s ++ [data_message data; guru_response data]
  /\ count_transient (messages s3) + 1 = count_transient (messages s1)
  /\ count_confirmed (messages s3) = count_confirmed (messages s) + 2.
Proof.
  intros s data evs s1 s2 s3.
  split; [(vm_compute; repeat split)|].
  apply (successful_send_reconciles s 1771242154000 sample_iso evs 0 data);
    (vm_compute; reflexivity).
Defined.

(** ** Submits that the guard stops *)

(** C5, as stated, fails: with a send awaited and its pending entry in the
    transcript, a second submit raises no error of any kind; the handler
    returns normally and no notification is shown. *)
Lemma second_send_raises_no_error :
  let s := run [Change (str "What is dharma?");
                Submit 1771242154000 sample_iso;
                Change (str "Guide me on my path")] fresh in
  count_transient (messages s) = 1
  /\ isLoading s = true
  /\ snd (handleSendMessage 1771242155000 sample_iso s) = Returned
  /\ snd (handleSendMessage 1771242155000 sample_iso s)
     <> Thrown (str "ConcurrentSendError")
  /\ toasts (step (Submit 1771242155000 sample_iso) s) = [].
Proof. vm_compute. repeat split. discriminate. Qed.

(** C5, amended: in every reachable state in which a send is awaited
    ([isLoading] holds, which is the case whenever the transcript has a
    pending entry), a further submit is ignored without any error: the
    handler returns at once, before any request, and the whole state
    (transcript, awaited requests, notifications) is unchanged. *)
Theorem send_while_loading_is_ignored
  (r : Router) (param : option jsstring) (stored : jsstring)
  (es : list Event) (now : N) (iso : jsstring) :
  forallb server_ok es = true ->
  let s := run es (mount r param stored) in
  isLoading s = true \/ 1 <= count_transient (messages s) ->
  handleSendMessage now iso s = (s, Returned)
  /\ step (Submit now iso) s = s.
Proof.
  intros Hok s H.
  assert (Hl : isLoading s = true).
  { destruct H as [H|H]; [exact H|].
    apply send_inv_pending; [|exact H].
    apply send_inv_run; [exact Hok | apply send_inv_mount]. }
  apply submit_ignored. rewrite Hl. apply orb_true_r.
Qed.

Lemma send_while_loading_is_ignored_witness :
  let es := [Change (str "What is dharma?");
             Submit 1771242154000 sample_iso;
             Change (str "Guide me on my path")] in
  let s := run es (mount (router_at "/chat") None (str "u1")) in
  (forallb server_ok es = true
   /\ (isLoading s = true \/ 1 <= count_transient (messages s)))
  /\ handleSendMessage 1771242155000 sample_iso s = (s, Returned)
  /\ step (Submit 1771242155000 sample_iso) s = s.
Proof.
  intros es s.
  split; [split; [(vm_compute; reflexivity) | left; (vm_compute; reflexivity)]|].
  apply (send_while_loading_is_ignored (router_at "/chat") None (str "u1") es
           1771242155000 sample_iso);
    [(vm_compute; reflexivity) | left; (vm_compute; reflexivity)].
Defined.

(** C8: when the text in the input buffer is empty after trimming
    (empty or white space only), the submit returns at once: no request
    is issued and the state, with its transcript and its active
    conversation id, is unchanged. *)
Theorem blank_send_is_rejected (s : ChatPage) (now : N) (iso : jsstring) :
  trim (message s) = [] ->
  handleSendMessage now iso s = (s, Returned)
  /\ step (Submit now iso) s = s
  /\ messages (step (Submit now iso) s) = messages s
  /\ currentConversationId (step (Submit now iso) s) = currentConversationId s
  /\ chat_posts (step (Submit now iso) s) = chat_posts s.
Proof.
  intros H.
  destruct (submit_ignored now iso s) as [H1 H2];
    [rewrite H; reflexivity|].
  rewrite H2. auto.
Qed.

Lemma blank_send_is_rejected_witness :
  let s := step (Change (str "   ")) viewing_A in
  trim (message s) = []
  /\ handleSendMessage 1771242154000 sample_iso s = (s, Returned)
  /\ step (Submit 1771242154000 sample_iso) s = s
  /\ messages (step (Submit 1771242154000 sample_iso) s) = messages s
  /\ currentConversationId (step (Submit 1771242154000 sample_iso) s)
     = currentConversationId s
  /\ chat_posts (step (Submit 1771242154000 sample_iso) s) = chat_posts s.
Proof.
  intros s. split; [(vm_compute; reflexivity)|].
  apply (blank_send_is_rejected s 1771242154000 sample_iso). (vm_compute; reflexivity).
Defined.

(** A text made of white space only trims to the empty text. *)
Lemma trimStart_blank (t : jsstring) :
  forallb is_white_space t = true -> trimStart t = [].
Proof.
  induction t as [|c t IH]; simpl; auto.
  intros H. apply andb_true_iff in H. destruct H as [-> H]. auto.
Qed.

Lemma trim_blank (t : jsstring) :
  forallb is_white_space t = true -> trim t = [].
Proof. intros H. unfold trim. rewrite trimStart_blank by exact H. reflexivity. Qed.

(** ** The draft that gets its id *)

(** C6, as stated, fails: when the id the server assigns has a percent
    escape, here [c%41], the router gives the parameter decoded, [cA]; the
    [[conversationId]] effect then finds it different from the id just
    adopted, makes [cA] the active id and requests its history. *)
Lemma draft_id_with_escape_is_reloaded :
  let s2 := run [Change (str "What is dharma?");
                 Submit 1771242154000 sample_iso] fresh in
  let data := {| conversation_id := str "c%41"; data_message := m1;
                 guru_response := g1 |} in
  let s3 := step (ChatSettled 0 (Fulfilled data)) s2 in
  currentConversationId s2 = None
  /\ conversation_gets s2 = []
  /\ currentConversationId s3 = Some (str "cA")
  /\ currentConversationId s3 <> Some (conversation_id data)
  /\ conversation_gets s3 = [str "cA"].
Proof. vm_compute. repeat split. discriminate. Qed.

(** C6, amended: a send started with no active conversation id and
    fulfilled with an id that the router leaves as written (a plain path
    segment, such as a UUID) makes that id the active one without any
    history load: no [GET /conversation/:id] is issued by the transition
    (the effect on the route parameter finds [currentConversationId]
    already equal to it), and the transcript is the one shown,
    reconciled. *)
Theorem draft_adopts_id_without_reload
  (s : ChatPage) (now : N) (iso : jsstring) (evs : list Event) (i : nat)
  (data : ChatData) :
  truthy (trim (message s)) = true ->
  isLoading s = false ->
  currentConversationId s = None ->
  binds (router s) (conversation_id data) = true ->
  let s1 := step (Submit now iso) s in
  let s2 := run evs s1 in
  nth_error (chat_posts s2) i = Some (send_closure now iso s) ->
  let s3 := step (ChatSettled i (Fulfilled data)) s2 in
  currentConversationId s3 = Some (conversation_id data)
  /\ conversation_gets s3 = conversation_gets s2
  /\ messages s3
     = without (make_tempUserMsg now iso (trim (message s))) (messages s2)
       ++ [data_message data; guru_response data].
Proof.
  intros Ht Hl Hd Hb s1 s2 Hk s3.
  destruct (chat_fulfilled s2 i (send_closure now iso s) data Hk) as (Hm & _).
  assert (Hr : router s2 = router s)
    by (unfold s2, s1; rewrite router_run, router_step; reflexivity).
  destruct (chat_fulfilled_adopted s2 i (send_closure now iso s) data Hk)
    as (Hc & Hg).
  - cbn [send_closure send_currentConversationId]. rewrite Hd. reflexivity.
  - rewrite Hr. exact Hb.
  - fold s3 in Hm, Hc, Hg. cbn [send_closure tempUserMsg] in Hm. auto.
Qed.

Lemma draft_adopts_id_without_reload_witness :
  let s := step (Change (str "What is dharma?")) fresh in
  let data := {| conversation_id := str "c-42"; data_message := m1;
                 guru_response := g1 |} in
  let evs := [ConversationsSettled 0 (Fulfilled [])] in
  let s1 := step (Submit 1771242154000 sample_iso) s in
  let s2 := run evs s1 in
  let s3 := step (ChatSettled 0 (Fulfilled data)) s2 in
  (truthy (trim (message s)) = true
   /\ isLoading s = false
   /\ currentConversationId s = None
   /\ binds (router s) (conversation_id data) = true
   /\ nth_error (chat_posts s2) 0
      = Some (send_closure 1771242154000 sample_iso s))
  /\ currentConversationId s3 = Some (conversation_id data)
  /\ conversation_gets s3 = conversation_gets s2
  /\ messages s3
     = without (make_tempUserMsg 1771242154000 sample_iso (trim (message s)))
               (messages s2)
       ++ [data_message data; guru_response data].
Proof.
  intros s data evs s1 s2 s3.
  split; [vm_compute; repeat split|].
  apply (draft_adopts_id_without_reload s 1771242154000 sample_iso evs 0 data);
    vm_compute; reflexivity.
Defined.

(** ** Deleting a conversation *)

(** Asking for a deletion only records the awaited request. *)
Lemma delete_step (convId : jsstring) (s : ChatPage) :
  step (DeleteConversation convId) s
  = s |> set_conversation_deletes
           (conversation_deletes s ++ [delete_closure convId s]).
Proof.
  unfold step. cbn [handle]. apply effects_idle; reflexivity.
Qed.

(** C7: when the conversation that is active when its deletion is asked
    for is deleted, then once the request is fulfilled, whatever happened
    meanwhile, there is no active conversation id, the route has no
    parameter and the transcript is empty. *)
Theorem deleting_active_conversation_resets
  (s : ChatPage) (convId : jsstring) (evs : list Event) (i : nat) :
  currentConversationId s = Some convId ->
  let s1 := step (DeleteConversation convId) s in
  let s2 := run evs s1 in
  nth_error (conversation_deletes s2) i = Some (delete_closure convId s) ->
  let s3 := step (DeleteSettled i (Fulfilled tt)) s2 in
  currentConversationId s3 = None
  /\ conversationId s3 = None
  /\ messages s3 = [].
Proof.
  intros Hc s1 s2 Hk s3. unfold s3.
  apply (delete_settled_active s2 i _ Hk).
  cbn [delete_closure del_convId del_currentConversationId].
  rewrite Hc. apply opt_eqb_refl.
Qed.

Lemma deleting_active_conversation_resets_witness :
  let s := viewing_A in
  let evs := [Change (str "What is dharma?")] in
  let s1 := step (DeleteConversation (str "A")) s in
  let s2 := run evs s1 in
  let s3 := step (DeleteSettled 0 (Fulfilled tt)) s2 in
  (currentConversationId s = Some (str "A")
   /\ nth_error (conversation_deletes s2) 0
      = Some (delete_closure (str "A") s))
  /\ currentConversationId s3 = None
  /\ conversationId s3 = None
  /\ messages s3 = [].
Proof.
  intros s evs s1 s2 s3.
  split; [(vm_compute; repeat split)|].
  apply (deleting_active_conversation_resets s (str "A") evs 0); (vm_compute; reflexivity).
Defined.

(** The comparison is with the id that was active when the deletion was
    asked for: a conversation selected after that stays on screen when its
    deletion is fulfilled. *)
Example delete_then_select_keeps_view :
  let s := run [DeleteConversation (str "B");
                SelectConversation (str "B");
                ConversationSettled 0 (sample_history [b1]);
                DeleteSettled 0 (Fulfilled tt)] viewing_A in
  currentConversationId s = Some (str "B") /\ messages s = [b1].
Proof. vm_compute. split; reflexivity. Qed.

(** And the deletion of the conversation that was active when it was
    asked for resets the view even when another one has been selected
    since. *)
Example delete_resets_later_selection :
  let s := run [DeleteConversation (str "A");
                SelectConversation (str "B");
                ConversationSettled 0 (sample_history [b1]);
                DeleteSettled 0 (Fulfilled tt)] viewing_A in
  currentConversationId s = None /\ messages s = [].
Proof. vm_compute. split; reflexivity. Qed.

(** C9: deleting a conversation that is not the active one when its
    deletion is asked for changes neither the transcript nor the active
    conversation id, when the request is issued and when it settles.  When
    it is fulfilled a notification is shown and the sidebar list is
    fetched again; when it is rejected a notification is shown; nothing
    else changes. *)
Theorem deleting_other_conversation_keeps_view
  (s : ChatPage) (convId : jsstring) (evs : list Event) (i : nat)
  (r : Promise unit) :
  currentConversationId s <> Some convId ->
  let s1 := step (DeleteConversation convId) s in
  let s2 := run evs s1 in
  nth_error (conversation_deletes s2) i = Some (delete_closure convId s) ->
  let s3 := step (DeleteSettled i r) s2 in
  (messages s1 = messages s
   /\ currentConversationId s1 = currentConversationId s
   /\ conversationId s1 = conversationId s)
  /\ (messages s3 = messages s2
      /\ currentConversationId s3 = currentConversationId s2
      /\ conversationId s3 = conversationId s2)
  /\ s3 = match r with
          | Fulfilled _ =>
              s2 |> set_conversation_deletes
                      (remove_nth i (conversation_deletes s2))
                 |> toast (toast_success (str "Conversation deleted"))
                 |> fetchConversations (userId s)
          | Rejected _ =>
              s2 |> set_conversation_deletes
                      (remove_nth i (conversation_deletes s2))
                 |> toast (toast_error (str "Failed to delete conversation"))
          end.
Proof.
  intros Hne s1 s2 Hk s3.
  assert (E : opt_eqb (Some convId) (currentConversationId s) = false).
  { destruct (opt_eqb (Some convId) (currentConversationId s)) eqn:E; auto.
    apply opt_eqb_eq in E. congruence. }
  split; [unfold s1; rewrite delete_step; fields; auto|].
  assert (H3 : s3 = match r with
          | Fulfilled _ =>
              s2 |> set_conversation_deletes
                      (remove_nth i (conversation_deletes s2))
                 |> toast (toast_success (str "Conversation deleted"))
                 |> fetchConversations (userId s)
          | Rejected _ =>
              s2 |> set_conversation_deletes
                      (remove_nth i (conversation_deletes s2))
                 |> toast (toast_error (str "Failed to delete conversation"))
          end).
  { unfold s3. rewrite (delete_settled s2 i _ r Hk) by (right; exact E).
    unfold handleDeleteConversation_settled.
    cbn [delete_closure del_convId del_currentConversationId del_userId].
    rewrite E. destruct r; reflexivity. }
  split; [|exact H3].
  rewrite H3. destruct r; fields; auto.
Qed.

Lemma deleting_other_conversation_keeps_view_witness :
  let s := viewing_A in
  let evs := [SelectConversation (str "B")] in
  let s1 := step (DeleteConversation (str "B")) s in
  let s2 := run evs s1 in
  let s3 := step (DeleteSettled 0 (Fulfilled tt)) s2 in
  (currentConversationId s <> Some (str "B")
   /\ nth_error (conversation_deletes s2) 0
      = Some (delete_closure (str "B") s))
  /\ (messages s1 = messages s
      /\ currentConversationId s1 = currentConversationId s
      /\ conversationId s1 = conversationId s)
  /\ (messages s3 = messages s2
      /\ currentConversationId s3 = currentConversationId s2
      /\ conversationId s3 = conversationId s2)
  /\ s3 = s2 |> set_conversation_deletes
                  (remove_nth 0 (conversation_deletes s2))
             |> toast (toast_success (str "Conversation deleted"))
             |> fetchConversations (userId s).
Proof.
  intros s evs s1 s2 s3.
  split; [split; [(vm_compute; discriminate) | (vm_compute; reflexivity)]|].
  apply (deleting_other_conversation_keeps_view s (str "B") evs 0
           (Fulfilled tt)); [(vm_compute; discriminate) | (vm_compute; reflexivity)].
Defined.

(** ** The in-flight flag *)

Lemma change_step (text : jsstring) (s : ChatPage) :
  step (Change text) s = setMessage text s.
Proof. unfold step. cbn [handle]. apply effects_idle; reflexivity. Qed.

(** C10: once the request of a send settles, fulfilled or rejected,
    [isLoading] is false, so the next submit of a non-blank text is
    accepted (its request is issued); after a rejection the buffer holds
    the text that was sent, and submitting it again as it stands is
    accepted. *)
Theorem send_settles_loading
  (s : ChatPage) (now : N) (iso : jsstring) (evs : list Event) (i : nat)
  (r : Promise ChatData) :
  truthy (trim (message s)) = true ->
  isLoading s = false ->
  let s1 := step (Submit now iso) s in
  let s2 := run evs s1 in
  nth_error (chat_posts s2) i = Some (send_closure now iso s) ->
  let s3 := step (ChatSettled i r) s2 in
  isLoading s3 = false
  /\ (forall (text : jsstring) (now' : N) (iso' : jsstring),
        truthy (trim text) = true ->
        let s4 := run [Change text; Submit now' iso'] s3 in
        isLoading s4 = true
        /\ chat_posts s4
           = chat_posts s3 ++ [send_closure now' iso' (setMessage text s3)])
  /\ (forall (err : jsstring) (now' : N) (iso' : jsstring),
        r = Rejected err ->
        let s4 := step (Submit now' iso') s3 in
        isLoading s4 = true
        /\ chat_posts s4 = chat_posts s3 ++ [send_closure now' iso' s3]
        /\ userMessage (send_closure now' iso' s3) = trim (message s)).
Proof.
  intros Ht Hl s1 s2 Hk s3.
  assert (H3 : isLoading s3 = false).
  { unfold s3. destruct r as [data|err].
    - apply (chat_fulfilled s2 i _ data Hk).
    - apply (chat_rejected s2 i _ err Hk). }
  split; [exact H3|]. split.
  - intros text now' iso' Htext. cbn [run fold_left].
    rewrite change_step, submit_accepted by (fields; assumption).
    fields. auto.
  - intros err now' iso' ->.
    destruct (chat_rejected s2 i _ err Hk) as (_ & Hb & _).
    fold s3 in Hb. cbn [send_closure userMessage] in Hb.
    assert (Ht3 : truthy (trim (message s3)) = true)
      by (rewrite Hb, trim_idem; exact Ht).
    rewrite submit_accepted by assumption. fields.
    cbn [send_closure userMessage]. rewrite Hb, trim_idem. auto.
Qed.

Lemma send_settles_loading_witness :
  let s := step (Change (str " What is dharma? ")) fresh in
  let evs := [NewConversation] in
  let r := Rejected (str "Network Error") in
  let s1 := step (Submit 1771242154000 sample_iso) s in
  let s2 := run evs s1 in
  let s3 := step (ChatSettled 0 r) s2 in
  (truthy (trim (message s)) = true
   /\ isLoading s = false
   /\ nth_error (chat_posts s2) 0
      = Some (send_closure 1771242154000 sample_iso s))
  /\ isLoading s3 = false
  /\ (forall (text : jsstring) (now' : N) (iso' : jsstring),
        truthy (trim text) = true ->
        let s4 := run [Change text; Submit now' iso'] s3 in
        isLoading s4 = true
        /\ chat_posts s4
           = chat_posts s3 ++ [send_closure now' iso' (setMessage text s3)])
  /\ (forall (err : jsstring) (now' : N) (iso' : jsstring),
        r = Rejected err ->
        let s4 := step (Submit now' iso') s3 in
        isLoading s4 = true
        /\ chat_posts s4 = chat_posts s3 ++ [send_closure now' iso' s3]
        /\ userMessage (send_closure now' iso' s3) = trim (message s)).
Proof.
  intros s evs r s1 s2 s3.
  split; [(vm_compute; repeat split)|].
  apply (send_settles_loading s 1771242154000 sample_iso evs 0 r);
    (vm_compute; reflexivity).
Defined.

(** * Further properties of [ChatPage] *)

(** ** Mounting and the route *)

(** What mounting leaves empty, whatever is in local storage. *)
Lemma mount_cells (r : Router) (param : option jsstring) (stored : jsstring) :
  let s := mount r param stored in
  conversation_gets s = []
  /\ messages s = []
  /\ chat_posts s = []
  /\ isLoading s = false
  /\ conversations s = []
  /\ currentConversationId s = (if truthy_opt param then param else None)
  /\ router s = r.
Proof.
  unfold mount.
  match goal with |- context [navigate_effect (conversationId_effect ?t)] =>
    assert (E : conversationId_effect t = t) end.
  { unfold conversationId_effect. fields.
    destruct param as [[|x c]|]; cbn [truthy truthy_opt andb];
      try rewrite opt_eqb_refl; reflexivity. }
  rewrite E. cbv zeta.
  match goal with |- context [navigate_effect ?t] =>
    destruct (navigate_effect_frame t) as (H1 & _ & H3 & H4 & _ & H6 & H7 & _);
    destruct (navigate_effect_keeps t) as (K1 & K2 & _) end.
  rewrite H1, H3, H4, H6, H7, K1, K2. fields. tauto.
Qed.

(** What mounting requests when local storage holds a user id. *)
Lemma mount_requests
  (r : Router) (param : option jsstring) (stored : jsstring) :
  truthy stored = true ->
  let s := mount r param stored in
  user_gets s = [stored]
  /\ conversations_gets s = [Some stored]
  /\ userId s = Some stored
  /\ conversationId s = param
  /\ conversation_deletes s = [].
Proof.
  intros Ht. unfold mount.
  match goal with |- context [navigate_effect (conversationId_effect ?t)] =>
    assert (E : conversationId_effect t = t) end.
  { unfold conversationId_effect. fields.
    destruct param as [[|x c]|]; cbn [truthy truthy_opt andb];
      try rewrite opt_eqb_refl; reflexivity. }
  rewrite E. unfold navigate_effect. fields. cbn [truthy_opt]. rewrite Ht.
  fields. tauto.
Qed.

(** Mounting with a user id in local storage issues two requests, for
    the profile and for the sidebar list of that user, and no other: with
    a conversation id in the route the id becomes the active one, yet its
    history is not requested ([currentConversationId] starts equal to the
    parameter, so the effect's test fails) and the transcript is empty. *)
Theorem mount_requests_no_history
  (r : Router) (param : option jsstring) (stored : jsstring) :
  truthy stored = true ->
  let s := mount r param stored in
  conversation_gets s = []
  /\ messages s = []
  /\ chat_posts s = []
  /\ conversation_deletes s = []
  /\ isLoading s = false
  /\ user_gets s = [stored]
  /\ conversations_gets s = [Some stored]
  /\ userId s = Some stored
  /\ currentConversationId s = (if truthy_opt param then param else None)
  /\ conversationId s = param.
Proof.
  intros Ht.
  destruct (mount_cells r param stored) as (C1 & C2 & C3 & C4 & _ & C6 & _).
  destruct (mount_requests r param stored Ht) as (R1 & R2 & R3 & R4 & R5).
  cbv zeta in *. tauto.
Qed.

Lemma mount_requests_no_history_witness :
  let s := mount (router_at "/chat/A") (Some (str "A")) (str "u1") in
  truthy (str "u1") = true
  /\ conversation_gets s = []
  /\ messages s = []
  /\ chat_posts s = []
  /\ conversation_deletes s = []
  /\ isLoading s = false
  /\ user_gets s = [str "u1"]
  /\ conversations_gets s = [Some (str "u1")]
  /\ userId s = Some (str "u1")
  /\ currentConversationId s = Some (str "A")
  /\ conversationId s = Some (str "A").
Proof.
  split; [reflexivity|].
  apply (mount_requests_no_history (router_at "/chat/A") (Some (str "A"))
           (str "u1")).
  reflexivity.
Defined.

(** After a transition of the component itself, with ids the router
    leaves as written, the parameter is unchanged or it is the active
    conversation id: the [[conversationId]] effect has nothing to do. *)
Lemma handlers_in_sync (e : Event) (s : ChatPage) :
  from_component e = true ->
  binds_event (router s) e = true ->
  (if opt_eqb (conversationId s) (conversationId (handle e s))
   then handle e s else conversationId_effect (handle e s))
  = handle e s.
Proof.
  intros He Hb.
  assert (U : forall t : ChatPage,
             conversationId t = conversationId s ->
             (if opt_eqb (conversationId s) (conversationId t)
              then t else conversationId_effect t) = t)
    by (intros t ->; rewrite opt_eqb_refl; reflexivity).
  assert (V : forall t : ChatPage,
             conversationId_effect t = t ->
             (if opt_eqb (conversationId s) (conversationId t)
              then t else conversationId_effect t) = t)
    by (intros t ->; destruct (opt_eqb _ _); reflexivity).
  destruct e as [text|now iso|i r| |c|i r|i r|i r|c|i r|b|p c];
    try discriminate He; cbn [handle].
  - apply U. reflexivity.
  - apply U. unfold handleSendMessage.
    destruct (negb (truthy (trim (message s))) || isLoading s); reflexivity.
  - destruct (nth_error (chat_posts s) i) as [k|]; [|apply U; reflexivity].
    destruct r as [data|err]; unfold handleSendMessage_settled;
      [|apply U; reflexivity].
    destruct (truthy_opt (send_currentConversationId k)); cbn [negb];
      [apply U; reflexivity|].
    apply V, effect_in_sync. fields.
    cbn [binds_event] in Hb. unfold binds in Hb. apply opt_eqb_eq in Hb.
    rewrite Hb. intros c Hc.
    destruct (truthy (conversation_id data)); congruence.
  - apply V, effect_in_sync. fields. discriminate.
  - apply V, effect_in_sync. unfold handleSelectConversation. fields.
    cbn [binds_event] in Hb. unfold binds in Hb. apply opt_eqb_eq in Hb.
    rewrite Hb. intros c' Hc. destruct (truthy c); congruence.
  - apply U. destruct (nth_error (conversation_gets s) i); [destruct r|];
      reflexivity.
  - apply U. destruct (nth_error (conversations_gets s) i); [destruct r|];
      reflexivity.
  - apply U. destruct (nth_error (user_gets s) i); [destruct r|];
      reflexivity.
  - apply U. reflexivity.
  - destruct (nth_error (conversation_deletes s) i) as [k|];
      [|apply U; reflexivity].
    destruct r as [u|err]; unfold handleDeleteConversation_settled;
      [|apply U; reflexivity].
    destruct (opt_eqb (Some (del_convId k)) (del_currentConversationId k));
      [|apply U; reflexivity].
    apply V, effect_in_sync. fields. discriminate.
  - apply U. reflexivity.
Qed.

(** The handlers keep [currentConversationId] and the route parameter
    together themselves: after any event of the component, the ids it
    navigates to being ones the router leaves as written, the
    [[conversationId]] effect changes nothing, so it never adds a history
    request to the ones the handler issued; the only effect that runs is
    the [[navigate]] effect, when the pathname has changed. *)
Theorem effect_idle_after_handlers (e : Event) (s : ChatPage) :
  from_component e = true ->
  binds_event (router s) e = true ->
  step e s
  = (if jseqb (pathname s) (pathname (handle e s))
     then handle e s else navigate_effect (handle e s)).
Proof.
  intros He Hb. unfold step, effects.
  rewrite (handlers_in_sync e s He Hb). reflexivity.
Qed.

Lemma effect_idle_after_handlers_witness :
  let s := step (Change (str "What is dharma?")) fresh in
  let s2 := step (Submit 1771242154000 sample_iso) s in
  let e := ChatSettled 0 (sample_reply "c-42") in
  (from_component e = true /\ binds_event (router s2) e = true)
  /\ step e s2
     = (if jseqb (pathname s2) (pathname (handle e s2))
        then handle e s2 else navigate_effect (handle e s2))
  /\ conversation_gets (step e s2) = [].
Proof.
  intros s s2 e. split; [split; vm_compute; reflexivity|].
  split; [|vm_compute; reflexivity].
  apply (effect_idle_after_handlers e s2); vm_compute; reflexivity.
Defined.

(** Selecting a conversation whose id the router leaves as written (a
    plain path segment, such as a UUID) issues one history request, for
    the id selected, makes the id the active one and closes the sidebar;
    the transcript stays as it is until the response arrives. *)
Theorem select_requests_history_once (convId : jsstring) (s : ChatPage) :
  binds (router s) convId = true ->
  let s' := step (SelectConversation convId) s in
  conversation_gets s' = conversation_gets s ++ [convId]
  /\ currentConversationId s' = Some convId
  /\ messages s' = messages s
  /\ isSidebarOpen s' = false
  /\ isLoading s' = isLoading s
  /\ message s' = message s.
Proof.
  intros Hb.
  destruct (select_bound convId s Hb) as (H1 & H2 & H3).
  destruct (select_frame convId s) as (F1 & F2 & F3 & _).
  cbv zeta. tauto.
Qed.

Lemma select_requests_history_once_witness :
  let s' := step (SelectConversation (str "B")) viewing_A in
  binds (router viewing_A) (str "B") = true
  /\ conversation_gets s' = conversation_gets viewing_A ++ [str "B"]
  /\ currentConversationId s' = Some (str "B")
  /\ messages s' = messages viewing_A
  /\ isSidebarOpen s' = false
  /\ isLoading s' = isLoading viewing_A
  /\ message s' = message viewing_A.
Proof.
  split; [vm_compute; reflexivity|].
  apply (select_requests_history_once (str "B") viewing_A).
  vm_compute; reflexivity.
Defined.

(** A location changed from outside, the page staying rendered: with a
    parameter that is not the active id the effect makes it the active one
    and requests its history; with the active id as parameter, or without
    parameter, the conversation that was open stays open and no history is
    requested; and whenever the pathname is a new one the profile and the
    sidebar list of the stored user are requested again. *)
Theorem route_change_from_outside (s : ChatPage) (path : jsstring) :
  (forall c, truthy c = true ->
             conversationId s <> Some c ->
             currentConversationId s <> Some c ->
             let s' := step (RouteChange path (Some c)) s in
             currentConversationId s' = Some c
             /\ conversation_gets s' = conversation_gets s ++ [c]
             /\ messages s' = messages s)
  /\ (forall c, currentConversationId s = Some c ->
                let s' := step (RouteChange path (Some c)) s in
                currentConversationId s' = Some c
                /\ conversation_gets s' = conversation_gets s
                /\ messages s' = messages s)
  /\ (let s' := step (RouteChange path None) s in
      currentConversationId s' = currentConversationId s
      /\ conversation_gets s' = conversation_gets s
      /\ messages s' = messages s)
  /\ (forall param uid,
        jseqb (pathname s) path = false ->
        pocketGuruUserId s = Some uid ->
        truthy uid = true ->
        let s' := step (RouteChange path param) s in
        user_gets s' = user_gets s ++ [uid]
        /\ conversations_gets s' = conversations_gets s ++ [Some uid]
        /\ userId s' = Some uid).
Proof.
  assert (Hne : forall a b, a <> b -> opt_eqb a b = false).
  { intros a b H. destruct (opt_eqb a b) eqn:E; auto.
    apply opt_eqb_eq in E. contradiction. }
  assert (K : forall t : ChatPage,
             currentConversationId
               (if jseqb (pathname s) path then t else navigate_effect t)
             = currentConversationId t
             /\ conversation_gets
                  (if jseqb (pathname s) path then t else navigate_effect t)
                = conversation_gets t
             /\ messages
                  (if jseqb (pathname s) path then t else navigate_effect t)
                = messages t).
  { intros t. destruct (jseqb (pathname s) path); [tauto|].
    destruct (navigate_effect_keeps t) as (K1 & K2 & _).
    destruct (navigate_effect_frame t) as (K3 & _). tauto. }
  split; [|split; [|split]].
  - intros c Ht Hr Hc. cbv zeta. unfold step, effects. cbn [handle]. fields.
    rewrite (Hne _ _ Hr). unfold conversationId_effect. fields.
    rewrite Ht, (Hne (Some c) (currentConversationId s)) by congruence.
    cbn [andb negb].
    match goal with |- context [if _ then ?t else navigate_effect ?t] =>
      destruct (K t) as (K1 & K2 & K3) end.
    rewrite K1, K2, K3. fields. tauto.
  - intros c Hc. cbv zeta. unfold step, effects. cbn [handle]. fields.
    match goal with |- context [conversationId_effect ?t] =>
      assert (E : conversationId_effect t = t)
        by (apply effect_in_sync; fields; congruence) end.
    rewrite E.
    match goal with |- context [if opt_eqb ?a ?b then ?t else ?t] =>
      replace (if opt_eqb a b then t else t) with t
        by (destruct (opt_eqb a b); reflexivity) end.
    match goal with |- context [if _ then ?t else navigate_effect ?t] =>
      destruct (K t) as (K1 & K2 & K3) end.
    rewrite K1, K2, K3. fields. tauto.
  - cbv zeta. unfold step, effects. cbn [handle]. fields.
    match goal with |- context [conversationId_effect ?t] =>
      assert (E : conversationId_effect t = t)
        by (apply effect_in_sync; fields; discriminate) end.
    rewrite E.
    match goal with |- context [if opt_eqb ?a ?b then ?t else ?t] =>
      replace (if opt_eqb a b then t else t) with t
        by (destruct (opt_eqb a b); reflexivity) end.
    match goal with |- context [if _ then ?t else navigate_effect ?t] =>
      destruct (K t) as (K1 & K2 & K3) end.
    rewrite K1, K2, K3. fields. tauto.
  - intros param uid Hp Hu Ht. cbv zeta. unfold step, effects.
    cbn [handle]. fields. rewrite Hp.
    assert (F : forall t : ChatPage,
               pocketGuruUserId t = Some uid ->
               user_gets (navigate_effect t) = user_gets t ++ [uid]
               /\ conversations_gets (navigate_effect t)
                  = conversations_gets t ++ [Some uid]
               /\ userId (navigate_effect t) = Some uid).
    { intros t Hs. unfold navigate_effect. rewrite Hs. cbn [truthy_opt].
      rewrite Ht. fields. tauto. }
    destruct (opt_eqb (conversationId s) param).
    + match goal with |- context [navigate_effect ?t] =>
        destruct (F t Hu) as (F1 & F2 & F3) end.
      rewrite F1, F2, F3. fields. tauto.
    + unfold conversationId_effect. fields. destruct param as [c|].
      * destruct (truthy c && negb (opt_eqb (Some c) (currentConversationId s)));
          match goal with |- context [navigate_effect ?t] =>
            destruct (F t Hu) as (F1 & F2 & F3) end;
          rewrite F1, F2, F3; fields; tauto.
      * match goal with |- context [navigate_effect ?t] =>
          destruct (F t Hu) as (F1 & F2 & F3) end.
        rewrite F1, F2, F3. fields. tauto.
Qed.

Lemma route_change_from_outside_witness :
  let s := viewing_A in
  let path := str "/chat/B" in
  let s' := step (RouteChange path (Some (str "B"))) s in
  (truthy (str "B") = true
   /\ conversationId s <> Some (str "B")
   /\ currentConversationId s <> Some (str "B")
   /\ jseqb (pathname s) path = false
   /\ pocketGuruUserId s = Some (str "u1")
   /\ truthy (str "u1") = true)
  /\ (currentConversationId s' = Some (str "B")
      /\ conversation_gets s' = conversation_gets s ++ [str "B"]
      /\ messages s' = messages s)
  /\ (user_gets s' = user_gets s ++ [str "u1"]
      /\ conversations_gets s' = conversations_gets s ++ [Some (str "u1")]
      /\ userId s' = Some (str "u1")).
Proof.
  intros s path s'.
  split; [vm_compute; repeat split; discriminate|].
  destruct (route_change_from_outside s path) as (H1 & _ & _ & H4).
  split.
  - apply (H1 (str "B")); vm_compute; [reflexivity | discriminate | discriminate].
  - apply (H4 (Some (str "B")) (str "u1")); vm_compute; reflexivity.
Defined.

Lemma route_in_sync_navigate_effect (s : ChatPage) :
  route_in_sync s -> route_in_sync (navigate_effect s).
Proof.
  unfold route_in_sync, navigate_effect.
  destruct (pocketGuruUserId s) as [uid|]; cbn [truthy_opt];
    [destruct (truthy uid)|]; fields; auto; discriminate.
Qed.

(** [route_in_sync] is kept by every event whose ids the router leaves
    as written. *)
Lemma route_in_sync_step (e : Event) (s : ChatPage) :
  binds_event (router s) e = true ->
  route_in_sync s -> route_in_sync (step e s).
Proof.
  intros Hb Hs. unfold step, effects.
  match goal with |- route_in_sync (if ?c then ?t else navigate_effect ?t) =>
    assert (Ht : route_in_sync t);
      [|destruct c; [exact Ht | apply route_in_sync_navigate_effect, Ht]] end.
  destruct (from_component e) eqn:He.
  - rewrite (handlers_in_sync e s He Hb).
    destruct e as [text|now iso|i r| |c|i r|i r|i r|c|i r|b|p c];
      try discriminate He; cbn [handle].
    + exact Hs.
    + unfold handleSendMessage.
      destruct (negb (truthy (trim (message s))) || isLoading s); exact Hs.
    + destruct (nth_error (chat_posts s) i) as [k|]; [|exact Hs].
      destruct r as [data|err]; unfold handleSendMessage_settled.
      * destruct (truthy_opt (send_currentConversationId k)); cbn [negb].
        -- unfold route_in_sync in *. fields. exact Hs.
        -- unfold route_in_sync. fields.
           cbn [binds_event] in Hb. unfold binds in Hb.
           apply opt_eqb_eq in Hb. rewrite Hb. intros c Hc _.
           destruct (truthy (conversation_id data)); congruence.
      * unfold route_in_sync in *. fields. exact Hs.
    + unfold route_in_sync. fields. discriminate.
    + unfold route_in_sync, handleSelectConversation. fields.
      cbn [binds_event] in Hb. unfold binds in Hb.
      apply opt_eqb_eq in Hb. rewrite Hb. intros c' Hc _.
      destruct (truthy c); congruence.
    + destruct (nth_error (conversation_gets s) i); [|exact Hs].
      destruct r; exact Hs.
    + destruct (nth_error (conversations_gets s) i); [|exact Hs].
      destruct r; exact Hs.
    + destruct (nth_error (user_gets s) i); [|exact Hs].
      destruct r; exact Hs.
    + exact Hs.
    + destruct (nth_error (conversation_deletes s) i) as [k|]; [|exact Hs].
      destruct r as [u|err]; unfold handleDeleteConversation_settled.
      * destruct (opt_eqb (Some (del_convId k)) (del_currentConversationId k)).
        -- unfold route_in_sync. fields. discriminate.
        -- unfold route_in_sync in *. fields. exact Hs.
      * unfold route_in_sync in *. fields. exact Hs.
    + exact Hs.
  - destruct e as [| | | | | | | | | | |p c]; try discriminate He.
    cbn [handle]. fields.
    destruct (opt_eqb (conversationId s) c) eqn:E.
    + apply opt_eqb_eq in E. subst c. exact Hs.
    + unfold conversationId_effect. fields. destruct c as [c|].
      * destruct (truthy c) eqn:Ht; cbn [andb].
        -- destruct (opt_eqb (Some c) (currentConversationId s)) eqn:Ec;
             cbn [negb]; unfold route_in_sync; fields.
           ++ apply opt_eqb_eq in Ec. intros c' Hc' _. congruence.
           ++ intros c' Hc' _. exact Hc'.
        -- unfold route_in_sync. fields. intros c' [= <-] Ht'. congruence.
      * unfold route_in_sync. fields. discriminate.
Qed.

(** In every state reached from the mounted component through events
    whose ids the router leaves as written (plain path segments, such as
    UUIDs), a conversation id present in the route is the active
    conversation id. *)
Theorem route_names_active_conversation
  (r : Router) (param : option jsstring) (stored : jsstring)
  (es : list Event) (c : jsstring) :
  forallb (binds_event r) es = true ->
  conversationId (run es (mount r param stored)) = Some c ->
  truthy c = true ->
  currentConversationId (run es (mount r param stored)) = Some c.
Proof.
  intros Hb. revert c.
  change (route_in_sync (run es (mount r param stored))).
  assert (H0 : route_in_sync (mount r param stored)).
  { unfold mount. apply route_in_sync_navigate_effect.
    unfold route_in_sync, conversationId_effect. fields.
    destruct param as [[|x c]|]; cbn [truthy truthy_opt andb];
      try rewrite opt_eqb_refl; cbn [negb]; fields;
      intros c' Hc' Ht'; try discriminate; try exact Hc'.
    injection Hc' as <-. discriminate Ht'. }
  assert (R0 : router (mount r param stored) = r)
    by apply (mount_cells r param stored).
  generalize dependent (mount r param stored).
  induction es as [|e es IH]; intros s H0 R0; [exact H0|].
  cbn [forallb] in Hb. apply andb_true_iff in Hb. destruct Hb as [He Hes].
  change (run (e :: es) s) with (run es (step e s)).
  apply (IH Hes).
  - apply route_in_sync_step; [rewrite R0; exact He | exact H0].
  - rewrite router_step. exact R0.
Qed.

Lemma route_names_active_conversation_witness :
  let r := router_at "/chat" in
  let es := [SelectConversation (str "A");
             RouteChange (str "/chat/B") (Some (str "B"));
             Change (str "hello"); Submit 1771242154000 sample_iso;
             ChatSettled 0 (sample_reply "B")] in
  (forallb (binds_event r) es = true
   /\ conversationId (run es (mount r None (str "u1"))) = Some (str "B")
   /\ truthy (str "B") = true)
  /\ currentConversationId (run es (mount r None (str "u1"))) = Some (str "B").
Proof.
  intros r es. split; [vm_compute; repeat split|].
  apply (route_names_active_conversation r None (str "u1") es (str "B"));
    vm_compute; reflexivity.
Defined.

(** ** The requests of sends *)

Lemma forall_remove_nth {A : Type} (P : A -> Prop) (i : nat) (l : list A) :
  Forall P l -> Forall P (remove_nth i l).
Proof.
  intros H. revert i.
  induction H as [|x l Hx Hl IH]; intros [|i]; unfold remove_nth in *;
    cbn [firstn skipn app]; auto.
Qed.

Lemma send_closure_ok (now : N) (iso : jsstring) (s : ChatPage) :
  truthy (trim (message s)) = true -> closure_ok (send_closure now iso s).
Proof.
  intros Ht. unfold closure_ok, send_closure. fields.
  repeat split; auto using trim_idem.
Qed.

Lemma flight_inv_step (e : Event) (s : ChatPage) :
  flight_inv s -> flight_inv (step e s).
Proof.
  intros [Hn Hk]. unfold flight_inv.
  destruct (step_frame e s) as (_ & _ & Hl & Hc & _). rewrite Hl, Hc.
  destruct e as [text|now iso|i r| |c|i r|i r|i r|c|i r|b|p c]; cbn [handle].
  - auto.
  - unfold handleSendMessage.
    destruct (truthy (trim (message s))) eqn:Ht; cbn [negb orb]; [|auto].
    destruct (isLoading s) eqn:L; cbn [fst]; [rewrite L; auto|].
    fields. rewrite length_app, Hn. split; [reflexivity|].
    apply Forall_app. split; [exact Hk|].
    constructor; [|constructor]. apply (send_closure_ok now iso s Ht).
  - destruct (nth_error (chat_posts s) i) as [k|] eqn:E; [|auto].
    assert (Hi : i = 0 /\ chat_posts s = [k]).
    { destruct (isLoading s); destruct (chat_posts s) as [|k0 [|k1 l]];
        try discriminate Hn; destruct i as [|[|i]]; try discriminate E.
      cbn in E. injection E as ->. auto. }
    destruct Hi as [-> Hcs].
    assert (Hrm : remove_nth 0 (chat_posts s) = []) by (rewrite Hcs; reflexivity).
    destruct r as [data|err]; unfold handleSendMessage_settled;
      [destruct (truthy_opt (send_currentConversationId k)); cbn [negb]|];
      fields; rewrite Hrm; auto.
  - fields. auto.
  - fields. auto.
  - destruct (nth_error (conversation_gets s) i); [destruct r|]; fields; auto.
  - destruct (nth_error (conversations_gets s) i); [destruct r|]; fields; auto.
  - destruct (nth_error (user_gets s) i); [destruct r|]; fields; auto.
  - fields. auto.
  - destruct (nth_error (conversation_deletes s) i) as [k|]; [|auto].
    destruct r as [u|err]; unfold handleDeleteConversation_settled;
      [destruct (opt_eqb (Some (del_convId k)) (del_currentConversationId k))|];
      fields; auto.
  - fields. auto.
  - fields. auto.
Qed.

Lemma flight_inv_run (es : list Event) (s : ChatPage) :
  flight_inv s -> flight_inv (run es s).
Proof.
  revert s. induction es as [|e es IH]; intros s H; [exact H|].
  cbn [run fold_left]. apply IH, flight_inv_step, H.
Qed.

Lemma flight_inv_mount
  (r : Router) (param : option jsstring) (stored : jsstring) :
  flight_inv (mount r param stored).
Proof.
  destruct (mount_cells r param stored) as (_ & _ & Hc & Hl & _).
  unfold flight_inv. rewrite Hc, Hl. split; [reflexivity|constructor].
Qed.

(** In every state reached from the mounted component, whatever the
    events and whatever the server answers, at most one [POST /chat] is
    awaited, and one is awaited exactly while [isLoading] holds. *)
Theorem one_send_in_flight
  (r : Router) (param : option jsstring) (stored : jsstring)
  (es : list Event) :
  let s := run es (mount r param stored) in
  length (chat_posts s) = (if isLoading s then 1 else 0).
Proof. apply flight_inv_run, flight_inv_mount. Qed.

(** Every request of a send that is awaited carries a text that is not
    empty and has no white space at either end (trimming it changes
    nothing), and that text is the content of the optimistic entry, whose
    id is a [temp-] id. *)
Theorem sent_text_is_trimmed
  (r : Router) (param : option jsstring) (stored : jsstring)
  (es : list Event) (k : SendClosure) :
  In k (chat_posts (run es (mount r param stored))) ->
  truthy (userMessage k) = true
  /\ trim (userMessage k) = userMessage k
  /\ content (tempUserMsg k) = userMessage k
  /\ is_transient (tempUserMsg k) = true.
Proof.
  intros Hin.
  destruct (flight_inv_run es (mount r param stored)
              (flight_inv_mount r param stored)) as [_ H].
  rewrite Forall_forall in H. destruct (H k Hin) as (H1 & H2 & H3 & H4).
  auto.
Qed.

Lemma sent_text_is_trimmed_witness :
  let es := [Change (str "  What is dharma?  ");
             Submit 1771242154000 sample_iso] in
  let k := send_closure 1771242154000 sample_iso
             (run [Change (str "  What is dharma?  ")] fresh) in
  In k (chat_posts (run es (mount (router_at "/chat") None (str "u1"))))
  /\ userMessage k = str "What is dharma?"
  /\ truthy (userMessage k) = true
  /\ trim (userMessage k) = userMessage k
  /\ content (tempUserMsg k) = userMessage k
  /\ is_transient (tempUserMsg k) = true.
Proof.
  intros es k.
  assert (Hin : In k (chat_posts
                      (run es (mount (router_at "/chat") None (str "u1")))))
    by (left; (vm_compute; reflexivity)).
  split; [exact Hin|]. split; [(vm_compute; reflexivity)|].
  apply (sent_text_is_trimmed (router_at "/chat") None (str "u1") es k Hin).
Defined.

(** Filtering by the id of a transient entry removes no confirmed
    entry. *)
Lemma confirmed_without (temp : Message) (ms : list Message) :
  is_transient temp = true ->
  confirmed_entries (without temp ms) = confirmed_entries ms.
Proof.
  intros Ht. unfold confirmed_entries, without.
  induction ms as [|m ms IH]; [reflexivity|]. cbn [filter].
  destruct (jseqb (id m) (id temp)) eqn:E; cbn [negb].
  - apply jseqb_eq in E.
    assert (Hm : is_transient m = true)
      by (unfold is_transient in *; rewrite E; exact Ht).
    rewrite Hm. cbn [negb]. exact IH.
  - cbn [filter]. rewrite IH. reflexivity.
Qed.

(** In every state reached from the mounted component, whatever
    happened while a send was awaited, the settling of its request leaves
    every confirmed entry of the transcript in place and in order: a
    rejection removes none and adds none, a fulfilment adds the two
    entries of the response, when these have server ids, after them. *)
Theorem settling_keeps_confirmed_entries
  (rt : Router) (param : option jsstring) (stored : jsstring)
  (es : list Event) (i : nat) (k : SendClosure) (r : Promise ChatData) :
  let s := run es (mount rt param stored) in
  nth_error (chat_posts s) i = Some k ->
  server_ok (ChatSettled i r) = true ->
  confirmed_entries (messages (step (ChatSettled i r) s))
  = confirmed_entries (messages s)
    ++ match r with
       | Fulfilled data => [data_message data; guru_response data]
       | Rejected _ => []
       end.
Proof.
  intros s Hk Hok.
  destruct (flight_inv_run es (mount rt param stored)
              (flight_inv_mount rt param stored)) as [_ H].
  fold s in H. rewrite Forall_forall in H.
  destruct (H k (nth_error_In _ _ Hk)) as (Ht & _).
  destruct r as [data|err].
  - destruct (chat_fulfilled s i k data Hk) as (Hm & _). rewrite Hm.
    cbn [server_ok] in Hok. apply andb_true_iff in Hok.
    destruct Hok as [H1 H2].
    unfold confirmed_entries at 1. rewrite filter_app.
    fold (confirmed_entries (without (tempUserMsg k) (messages s))).
    rewrite (confirmed_without _ _ Ht). cbn [filter].
    rewrite H1, H2. reflexivity.
  - destruct (chat_rejected s i k err Hk) as (Hm & _). rewrite Hm.
    rewrite (confirmed_without _ _ Ht), app_nil_r. reflexivity.
Qed.

Lemma settling_keeps_confirmed_entries_witness :
  let es := [SelectConversation (str "A");
             ConversationSettled 0 (sample_history [a1; a2]);
             Change (str "What is dharma?");
             Submit 1771242154000 sample_iso;
             SelectConversation (str "B");
             ConversationSettled 0 (sample_history [b1])] in
  let s := run es (mount (router_at "/chat") None (str "u1")) in
  let k := send_closure 1771242154000 sample_iso
             (step (Change (str "What is dharma?")) viewing_A) in
  let r : Promise ChatData := Rejected (str "Network Error") in
  (nth_error (chat_posts s) 0 = Some k
   /\ server_ok (ChatSettled 0 r) = true)
  /\ confirmed_entries (messages (step (ChatSettled 0 r) s))
     = confirmed_entries (messages s) ++ [].
Proof.
  intros es s k r. split; [split; (vm_compute; reflexivity)|].
  apply (settling_keeps_confirmed_entries (router_at "/chat") None (str "u1")
           es 0 k r);
    (vm_compute; reflexivity).
Defined.

(** ** History loads *)

(** A history load that is rejected only leaves the list of awaited
    requests. *)
Lemma conversation_rejected (s : ChatPage) (i : nat) (c err : jsstring) :
  nth_error (conversation_gets s) i = Some c ->
  step (ConversationSettled i (Rejected err)) s
  = s |> set_conversation_gets (remove_nth i (conversation_gets s)).
Proof.
  intros H. unfold step. cbn [handle]. rewrite H.
  apply effects_idle; reflexivity.
Qed.

(** History loads are applied in the order their responses arrive, not
    in the order the conversations were selected: when [convA] then
    [convB] are selected (ids the router leaves as written) and the
    response for [convB] arrives first, the transcript ends up being the
    history of [convA] while [convB] is the active conversation. *)
Theorem history_loads_apply_in_arrival_order
  (s : ChatPage) (convA convB : jsstring) (dataA dataB : ConversationData) :
  binds (router s) convA = true ->
  binds (router s) convB = true ->
  let n := length (conversation_gets s) in
  let s' := run [SelectConversation convA;
                 SelectConversation convB;
                 ConversationSettled (S n) (Fulfilled dataB);
                 ConversationSettled n (Fulfilled dataA)] s in
  currentConversationId s' = Some convB
  /\ messages s'
     = match data_messages dataA with Some ms => ms | None => [] end
  /\ conversation_gets s' = conversation_gets s.
Proof.
  intros HA HB n s'. unfold s'. cbn [run fold_left].
  set (s1 := step (SelectConversation convA) s).
  set (s2 := step (SelectConversation convB) s1).
  destruct (select_bound convA s HA) as (G1 & _). fold s1 in G1.
  assert (HB' : binds (router s1) convB = true)
    by (unfold s1; rewrite router_step; exact HB).
  destruct (select_bound convB s1 HB') as (G2 & C2 & _). fold s2 in G2, C2.
  assert (Hn : S n = length (conversation_gets s ++ [convA]))
    by (rewrite length_app; cbn [length]; unfold n; lia).
  assert (GB : nth_error (conversation_gets s2) (S n) = Some convB)
    by (rewrite G2, G1, Hn; apply nth_error_last).
  rewrite (conversation_fulfilled s2 (S n) convB dataB GB).
  rewrite (conversation_fulfilled _ n convA)
    by (fields; rewrite G2, G1, Hn, remove_nth_last; apply nth_error_last).
  fields. rewrite G2, G1, Hn, remove_nth_last. unfold n.
  rewrite remove_nth_last. tauto.
Qed.

Lemma history_loads_apply_in_arrival_order_witness :
  let s := fresh in
  let n := length (conversation_gets s) in
  let s' := run [SelectConversation (str "A");
                 SelectConversation (str "B");
                 ConversationSettled (S n) (sample_history [b1]);
                 ConversationSettled n (sample_history [a1; a2])] s in
  (binds (router s) (str "A") = true /\ binds (router s) (str "B") = true)
  /\ currentConversationId s' = Some (str "B")
  /\ messages s' = [a1; a2]
  /\ conversation_gets s' = conversation_gets s.
Proof.
  intros s n s'. split; [split; vm_compute; reflexivity|].
  apply (history_loads_apply_in_arrival_order s (str "A") (str "B")
           {| data_messages := Some [a1; a2] |}
           {| data_messages := Some [b1] |});
    vm_compute; reflexivity.
Defined.

(** A history load that fails is silent: the conversation selected (an
    id the router leaves as written) is the active one, the transcript is
    still the one shown before the selection, no notification is shown and
    no request is left awaited. *)
Theorem failed_history_load_is_silent
  (s : ChatPage) (convId err : jsstring) :
  binds (router s) convId = true ->
  let s' := run [SelectConversation convId;
                 ConversationSettled (length (conversation_gets s))
                   (Rejected err)] s in
  currentConversationId s' = Some convId
  /\ messages s' = messages s
  /\ toasts s' = toasts s
  /\ conversation_gets s' = conversation_gets s
  /\ isLoading s' = isLoading s.
Proof.
  intros Hb s'. unfold s'. cbn [run fold_left].
  destruct (select_bound convId s Hb) as (G1 & C1 & _).
  destruct (select_frame convId s) as (F1 & _ & F3 & _ & F5 & _).
  rewrite (conversation_rejected _ _ convId)
    by (rewrite G1; apply nth_error_last).
  fields. rewrite G1, remove_nth_last. tauto.
Qed.

Lemma failed_history_load_is_silent_witness :
  let s := viewing_A in
  let s' := run [SelectConversation (str "B");
                 ConversationSettled (length (conversation_gets s))
                   (Rejected (str "Network Error"))] s in
  binds (router s) (str "B") = true
  /\ currentConversationId s' = Some (str "B")
  /\ messages s' = messages s
  /\ toasts s' = toasts s
  /\ conversation_gets s' = conversation_gets s
  /\ isLoading s' = isLoading s.
Proof.
  intros s s'. split; [vm_compute; reflexivity|].
  apply (failed_history_load_is_silent s (str "B") (str "Network Error")).
  vm_compute; reflexivity.
Defined.

(** ** More on sends *)

(** The send button is disabled exactly in the states in which a submit
    is ignored: when it is enabled a submit sets [isLoading] and issues one
    request. *)
Theorem send_button_mirrors_guard (s : ChatPage) (now : N) (iso : jsstring) :
  (send_button_disabled s = true -> step (Submit now iso) s = s)
  /\ (send_button_disabled s = false ->
      isLoading (step (Submit now iso) s) = true
      /\ chat_posts (step (Submit now iso) s)
         = chat_posts s ++ [send_closure now iso s]).
Proof.
  unfold send_button_disabled. split; intros H.
  - apply submit_ignored. exact H.
  - apply orb_false_iff in H. destruct H as [Ht Hl].
    apply negb_false_iff in Ht.
    rewrite submit_accepted by assumption. fields. auto.
Qed.

Lemma send_button_mirrors_guard_witness :
  let s := step (Change (str "What is dharma?")) viewing_A in
  let s1 := step (Submit 1771242154000 sample_iso) s in
  (send_button_disabled s = false /\ send_button_disabled s1 = true)
  /\ (isLoading s1 = true
      /\ chat_posts s1
         = chat_posts s ++ [send_closure 1771242154000 sample_iso s])
  /\ step (Submit 1771242155000 sample_iso) s1 = s1.
Proof.
  intros s s1. split; [split; (vm_compute; reflexivity)|]. split.
  - apply (send_button_mirrors_guard s 1771242154000 sample_iso). (vm_compute; reflexivity).
  - apply (send_button_mirrors_guard s1 1771242155000 sample_iso). (vm_compute; reflexivity).
Defined.

(** A send that fails and is submitted again as the buffer stands, and
    then succeeds, leaves what a send that succeeds at once leaves: the
    transcript before the send followed by the two entries of the response,
    an empty buffer and no awaited request; the second request carries the
    text of the first; only the error notification remains of the
    failure. *)
Theorem retry_after_failure
  (s : ChatPage) (now now' : N) (iso iso' err : jsstring) (data : ChatData) :
  truthy (trim (message s)) = true ->
  isLoading s = false ->
  count_transient (messages s) = 0 ->
  let n := length (chat_posts s) in
  let s3 := run [Submit now iso; ChatSettled n (Rejected err);
                 Submit now' iso'] s in
  let s4 := step (ChatSettled n (Fulfilled data)) s3 in
  (exists k, nth_error (chat_posts s3) n = Some k
             /\ userMessage k = trim (message s))
  /\ messages s4 = messages s ++ [data_message data; guru_response data]
  /\ message s4 = []
  /\ isLoading s4 = false
  /\ chat_posts s4 = chat_posts s
  /\ toasts s4
     = toasts s
       ++ [toast_error (str "Failed to send message. Please try again.")].
Proof.
  intros Ht Hl Hz n s3 s4.
  set (s1 := step (Submit now iso) s).
  set (s2 := step (ChatSettled n (Rejected err)) s1).
  assert (H1 : nth_error (chat_posts s1) n = Some (send_closure now iso s)).
  { unfold s1. rewrite submit_accepted by assumption. fields.
    apply nth_error_last. }
  destruct (chat_rejected s1 n _ err H1)
    as (Hm2 & Hb2 & Hl2 & Hc2 & Ht2 & _).
  fold s2 in Hm2, Hb2, Hl2, Hc2, Ht2.
  assert (Hm2' : messages s2 = messages s).
  { rewrite Hm2. unfold s1. rewrite submit_messages by assumption.
    apply without_appended. exact Hz. }
  assert (Hc2' : chat_posts s2 = chat_posts s).
  { rewrite Hc2. unfold s1. rewrite submit_accepted by assumption. fields.
    apply remove_nth_last. }
  assert (Ht2' : toasts s2
                 = toasts s ++ [toast_error
                     (str "Failed to send message. Please try again.")]).
  { rewrite Ht2. unfold s1. rewrite submit_accepted by assumption.
    reflexivity. }
  cbn [send_closure userMessage] in Hb2.
  assert (Htr : truthy (trim (message s2)) = true)
    by (rewrite Hb2, trim_idem; exact Ht).
  assert (E3 : s3 = step (Submit now' iso') s2) by reflexivity.
  rewrite (submit_accepted now' iso' s2 Htr Hl2) in E3.
  assert (H3 : nth_error (chat_posts s3) n = Some (send_closure now' iso' s2)).
  { rewrite E3. fields. unfold n. rewrite <- Hc2'. apply nth_error_last. }
  split.
  { exists (send_closure now' iso' s2). split; [exact H3|].
    cbn [send_closure userMessage]. rewrite Hb2. apply trim_idem. }
  destruct (chat_fulfilled s3 n _ data H3)
    as (Hm4 & Hb4 & Hl4 & Hc4 & Ht4).
  fold s4 in Hm4, Hb4, Hl4, Hc4, Ht4.
  repeat split.
  - rewrite Hm4, E3. fields. cbn [send_closure tempUserMsg].
    rewrite without_appended by (rewrite Hm2'; exact Hz).
    rewrite Hm2'. reflexivity.
  - rewrite Hb4, E3. reflexivity.
  - exact Hl4.
  - rewrite Hc4, E3. fields. unfold n. rewrite <- Hc2'.
    apply remove_nth_last.
  - rewrite Ht4, E3. fields. exact Ht2'.
Qed.

Lemma retry_after_failure_witness :
  let s := step (Change (str " What is dharma? ")) viewing_A in
  let data := {| conversation_id := str "A"; data_message := m1;
                 guru_response := g1 |} in
  let err := str "Network Error" in
  let n := length (chat_posts s) in
  let s3 := run [Submit 1771242154000 sample_iso;
                 ChatSettled n (Rejected err);
                 Submit 1771242160000 sample_iso] s in
  let s4 := step (ChatSettled n (Fulfilled data)) s3 in
  (truthy (trim (message s)) = true
   /\ isLoading s = false
   /\ count_transient (messages s) = 0)
  /\ (exists k, nth_error (chat_posts s3) n = Some k
                /\ userMessage k = trim (message s))
  /\ messages s4 = messages s ++ [data_message data; guru_response data]
  /\ message s4 = []
  /\ isLoading s4 = false
  /\ chat_posts s4 = chat_posts s
  /\ toasts s4
     = toasts s
       ++ [toast_error (str "Failed to send message. Please try again.")].
Proof.
  intros s data err n s3 s4. split; [(vm_compute; repeat split)|].
  apply (retry_after_failure s 1771242154000 1771242160000 sample_iso
           sample_iso err data); (vm_compute; reflexivity).
Defined.

(** When "New Conversation" is pressed while a send made on an existing
    conversation is awaited, the response that arrives fills the new
    draft: the transcript is exactly the two entries of the response, and
    there is still no active conversation id nor route parameter (the
    conversation id of the response is not adopted, the send having been
    made with one). *)
Lemma new_conversation_step (s : ChatPage) :
  let s' := step NewConversation s in
  messages s' = []
  /\ currentConversationId s' = None
  /\ conversationId s' = None
  /\ isLoading s' = isLoading s
  /\ chat_posts s' = chat_posts s.
Proof.
  cbv zeta. unfold step, effects. cbn [handle].
  match goal with |- context [conversationId_effect ?t] =>
    assert (E : conversationId_effect t = t)
      by (apply effect_in_sync; unfold handleNewConversation; fields;
          discriminate) end.
  rewrite E.
  match goal with |- context [if opt_eqb ?a ?b then ?t else ?t] =>
    replace (if opt_eqb a b then t else t) with t
      by (destruct (opt_eqb a b); reflexivity) end.
  match goal with |- context [if ?c then _ else _] => destruct c end.
  - unfold handleNewConversation. fields. tauto.
  - match goal with |- context [navigate_effect ?t] =>
      destruct (navigate_effect_frame t) as (H1 & _ & H3 & H4 & _);
      destruct (navigate_effect_keeps t) as (K1 & _);
      assert (K2 : conversationId (navigate_effect t) = None) end.
    { unfold navigate_effect, handleNewConversation. fields.
      destruct (pocketGuruUserId s) as [uid|]; cbn [truthy_opt];
        [destruct (truthy uid)|]; fields; reflexivity. }
    rewrite H1, H3, H4, K1, K2. unfold handleNewConversation. fields. tauto.
Qed.

Theorem reply_after_new_conversation
  (s : ChatPage) (now : N) (iso : jsstring) (data : ChatData) :
  truthy (trim (message s)) = true ->
  isLoading s = false ->
  truthy_opt (currentConversationId s) = true ->
  let s' := run [Submit now iso; NewConversation;
                 ChatSettled (length (chat_posts s)) (Fulfilled data)] s in
  messages s' = [data_message data; guru_response data]
  /\ currentConversationId s' = None
  /\ conversationId s' = None
  /\ isLoading s' = false.
Proof.
  intros Ht Hl Hc s'. unfold s'. cbn [run fold_left].
  set (s1 := step (Submit now iso) s).
  set (s2 := step NewConversation s1).
  destruct (new_conversation_step s1) as (N1 & N2 & N3 & _ & N5).
  fold s2 in N1, N2, N3, N5.
  assert (Hk : nth_error (chat_posts s2) (length (chat_posts s))
               = Some (send_closure now iso s)).
  { rewrite N5. unfold s1. rewrite (submit_accepted now iso s Ht Hl). fields.
    apply nth_error_last. }
  destruct (chat_fulfilled s2 _ _ data Hk) as (Hm & _ & Hl' & _).
  destruct (chat_fulfilled_kept s2 _ _ data Hk Hc) as (Hc' & Hr' & _).
  rewrite Hm, Hc', Hr', Hl', N1, N2, N3.
  cbn [send_closure tempUserMsg without filter app]. auto.
Qed.

Lemma reply_after_new_conversation_witness :
  let s := step (Change (str "What is dharma?")) viewing_A in
  let data := {| conversation_id := str "A"; data_message := m1;
                 guru_response := g1 |} in
  let s' := run [Submit 1771242154000 sample_iso; NewConversation;
                 ChatSettled (length (chat_posts s)) (Fulfilled data)] s in
  (truthy (trim (message s)) = true
   /\ isLoading s = false
   /\ truthy_opt (currentConversationId s) = true)
  /\ messages s' = [data_message data; guru_response data]
  /\ currentConversationId s' = None
  /\ conversationId s' = None
  /\ isLoading s' = false.
Proof.
  intros s data s'. split; [(vm_compute; repeat split)|].
  apply (reply_after_new_conversation s 1771242154000 sample_iso data);
    (vm_compute; reflexivity).
Defined.

(** ** Deletions and the sidebar list *)

(** A deletion that fails leaves the page as it was before it was asked
    for, the active conversation included, but for the error notification:
    no reset, no refresh of the sidebar list. *)
Theorem failed_deletion_changes_nothing
  (s : ChatPage) (convId err : jsstring) :
  run [DeleteConversation convId;
       DeleteSettled (length (conversation_deletes s)) (Rejected err)] s
  = s |> toast (toast_error (str "Failed to delete conversation")).
Proof.
  cbn [run fold_left]. rewrite delete_step.
  rewrite (delete_settled _ _ (delete_closure convId s))
    by (try (left; eexists; reflexivity); fields; apply nth_error_last).
  unfold handleDeleteConversation_settled. fields.
  rewrite remove_nth_last. destruct s; reflexivity.
Qed.

(** One event changes the sidebar list only by putting the payload of a
    fulfilled refresh in its place. *)
Lemma conversations_step (e : Event) (s : ChatPage) :
  conversations (step e s) = conversations s
  \/ exists i data, e = ConversationsSettled i (Fulfilled data)
                    /\ conversations (step e s) = data.
Proof.
  destruct (step_frame e s) as (_ & _ & _ & _ & _ & Hc & _). rewrite Hc.
  destruct e as [text|now iso|i r| |c|i r|i r|i r|c|i r|b|p c]; cbn [handle];
    try (left; reflexivity).
  - left. unfold handleSendMessage.
    destruct (negb (truthy (trim (message s))) || isLoading s); reflexivity.
  - left. destruct (nth_error (chat_posts s) i) as [k|]; [|reflexivity].
    destruct r as [data|err]; unfold handleSendMessage_settled;
      [destruct (truthy_opt (send_currentConversationId k)); cbn [negb]|];
      reflexivity.
  - left. destruct (nth_error (conversation_gets s) i); [destruct r|];
      reflexivity.
  - destruct (nth_error (conversations_gets s) i); [|left; reflexivity].
    destruct r as [data|err]; [|left; reflexivity].
    right. exists i, data. split; reflexivity.
  - left. destruct (nth_error (user_gets s) i); [destruct r|]; reflexivity.
  - left. destruct (nth_error (conversation_deletes s) i) as [k|];
      [|reflexivity].
    destruct r as [u|err]; unfold handleDeleteConversation_settled;
      [destruct (opt_eqb (Some (del_convId k)) (del_currentConversationId k))|];
      reflexivity.
Qed.

Lemma conversations_run (es : list Event) (s : ChatPage) :
  conversations (run es s) = conversations s
  \/ exists i data, In (ConversationsSettled i (Fulfilled data)) es
                    /\ conversations (run es s) = data.
Proof.
  revert s. induction es as [|e es IH]; intros s; [left; reflexivity|].
  change (run (e :: es) s) with (run es (step e s)).
  destruct (IH (step e s)) as [H|(i & data & Hin & H)].
  - rewrite H. destruct (conversations_step e s) as [H'|(i & data & -> & H')].
    + left. exact H'.
    + right. exists i, data. split; [left; reflexivity | exact H'].
  - right. exists i, data. split; [right; exact Hin | exact H].
Qed.

(** The sidebar list is never edited by the component: in every state
    reached from the mounted one it is empty or it is the payload of a
    refresh fulfilled before.  In particular a fulfilled deletion does not
    take the conversation out of the list; only the refresh it triggers
    does, when it arrives. *)
Theorem sidebar_list_only_from_server
  (r : Router) (param : option jsstring) (stored : jsstring)
  (es : list Event) :
  conversations (run es (mount r param stored)) = []
  \/ exists i data, In (ConversationsSettled i (Fulfilled data)) es
                    /\ conversations (run es (mount r param stored)) = data.
Proof.
  destruct (conversations_run es (mount r param stored)) as [H|H];
    [left|right; exact H].
  rewrite H. apply (mount_cells r param stored).
Qed.

(** * Properties of [AdminPage] *)

Lemma admin_filter_effect (s : Admin.AdminPage) :
  Admin.filteredConversations (Admin.filter_effect s)
  = Admin.visible (Admin.alignmentFilter s) (Admin.conversations s)
  /\ Admin.conversations (Admin.filter_effect s) = Admin.conversations s
  /\ Admin.alignmentFilter (Admin.filter_effect s) = Admin.alignmentFilter s
  /\ Admin.stats (Admin.filter_effect s) = Admin.stats s
  /\ Admin.isLoading (Admin.filter_effect s) = Admin.isLoading s
  /\ Admin.fetches (Admin.filter_effect s) = Admin.fetches s.
Proof.
  unfold Admin.filter_effect, Admin.visible.
  destruct (jseqb (Admin.alignmentFilter s) (str "all")); cbn; tauto.
Qed.

Lemma admin_table_step (e : Admin.Event) (s : Admin.AdminPage) :
  Admin.filteredConversations s
  = Admin.visible (Admin.alignmentFilter s) (Admin.conversations s) ->
  Admin.filteredConversations (Admin.step e s)
  = Admin.visible (Admin.alignmentFilter (Admin.step e s))
                  (Admin.conversations (Admin.step e s)).
Proof.
  intros H. destruct e as [|statsRes convsRes|value|conv|open];
    cbn [Admin.step].
  - exact H.
  - destruct (Admin.fetches s) as [|n]; [exact H|].
    destruct statsRes as [st|e1], convsRes as [cs|e2];
      cbn [Admin.promise_all]; try exact H.
    destruct (admin_filter_effect
                (Admin.fetchData_settled (Fulfilled (st, cs))
                   (Admin.set_fetches n s))) as (Hf & Hc & Ha & _).
    rewrite Hf, Hc, Ha. reflexivity.
  - destruct (jseqb (Admin.alignmentFilter s) value); [exact H|].
    destruct (admin_filter_effect (Admin.setAlignmentFilter value s))
      as (Hf & Hc & Ha & _).
    rewrite Hf, Hc, Ha. reflexivity.
  - exact H.
  - exact H.
Qed.

Lemma admin_table_run (es : list Admin.Event) :
  Admin.filteredConversations (Admin.run es Admin.mount)
  = Admin.visible (Admin.alignmentFilter (Admin.run es Admin.mount))
                  (Admin.conversations (Admin.run es Admin.mount)).
Proof.
  assert (H0 : Admin.filteredConversations Admin.mount
               = Admin.visible (Admin.alignmentFilter Admin.mount)
                               (Admin.conversations Admin.mount))
    by reflexivity.
  generalize dependent Admin.mount.
  induction es as [|e es IH]; intros s H0; [exact H0|].
  change (Admin.run (e :: es) s) with (Admin.run es (Admin.step e s)).
  apply IH, admin_table_step, H0.
Qed.

(** In every state reached from the mounted dashboard, whatever the
    refreshes, their outcomes and the filter changes, the table shows the
    conversations fetched last, all of them under the filter [all] and
    otherwise exactly those whose user has the alignment chosen, in the
    order of the server. *)
Theorem admin_table_matches_filter (es : list Admin.Event) :
  let s := Admin.run es Admin.mount in
  Admin.filteredConversations s
  = Admin.visible (Admin.alignmentFilter s) (Admin.conversations s).
Proof. cbv zeta. apply admin_table_run. Qed.

(** The two requests of a refresh are taken together: when one of them
    is rejected, neither the statistics nor the conversations nor the
    table change, even if the other request was fulfilled; the loading
    flag is cleared all the same. *)
Theorem admin_refresh_all_or_nothing
  (s : Admin.AdminPage) (statsRes : Promise Admin.Stats)
  (convsRes : Promise (list Admin.Conversation)) :
  Admin.fetches s <> 0 ->
  (exists e, statsRes = Rejected e) \/ (exists e, convsRes = Rejected e) ->
  let s' := Admin.step (Admin.DataSettled statsRes convsRes) s in
  Admin.stats s' = Admin.stats s
  /\ Admin.conversations s' = Admin.conversations s
  /\ Admin.filteredConversations s' = Admin.filteredConversations s
  /\ Admin.alignmentFilter s' = Admin.alignmentFilter s
  /\ Admin.isLoading s' = false.
Proof.
  intros Hf Hr. cbn [Admin.step].
  destruct (Admin.fetches s) as [|n]; [contradiction|].
  destruct statsRes as [st|e1], convsRes as [cs|e2];
    cbn [Admin.promise_all]; try (cbn; tauto).
  destruct Hr as [[e He]|[e He]]; discriminate.
Qed.

Lemma admin_refresh_all_or_nothing_witness :
  let s := Admin.run [Admin.DataSettled (Fulfilled sample_stats)
                        (Fulfilled [admin_row "c1" (Some bhakti_user)]);
                      Admin.Refresh] Admin.mount in
  let statsRes := Fulfilled sample_stats in
  let convsRes : Promise (list Admin.Conversation) :=
    Rejected (str "Network Error") in
  (Admin.fetches s <> 0
   /\ ((exists e, statsRes = Rejected e) \/ (exists e, convsRes = Rejected e)))
  /\ let s' := Admin.step (Admin.DataSettled statsRes convsRes) s in
     Admin.stats s' = Admin.stats s
     /\ Admin.conversations s' = Admin.conversations s
     /\ Admin.filteredConversations s' = Admin.filteredConversations s
     /\ Admin.alignmentFilter s' = Admin.alignmentFilter s
     /\ Admin.isLoading s' = false.
Proof.
  intros s statsRes convsRes.
  assert (H1 : Admin.fetches s <> 0) by discriminate.
  assert (H2 : (exists e, statsRes = Rejected e)
               \/ (exists e, convsRes = Rejected e))
    by (right; exists (str "Network Error"); reflexivity).
  split; [split; assumption|].
  apply (admin_refresh_all_or_nothing s statsRes convsRes H1 H2).
Defined.

(** A row whose user or alignment is missing (or empty) is drawn with
    the [universal] badge, yet the filter [universal] does not show it: in
    every state reached with that filter chosen, such a conversation of
    the list is not in the table. *)
Theorem admin_universal_badge_not_in_universal_filter
  (es : list Admin.Event) (conv : Admin.Conversation) :
  let s := Admin.run es Admin.mount in
  Admin.alignmentFilter s = str "universal" ->
  truthy_opt (Admin.user_alignment conv) = false ->
  Admin.badge_alignment conv = str "universal"
  /\ ~ In conv (Admin.filteredConversations s).
Proof.
  intros s Hf Hu. split.
  - unfold Admin.badge_alignment.
    destruct (Admin.user_alignment conv) as [a|]; [|reflexivity].
    cbn [truthy_opt] in Hu. rewrite Hu. reflexivity.
  - unfold s. rewrite (admin_table_run es). fold s. rewrite Hf.
    unfold Admin.visible.
    replace (jseqb (str "universal") (str "all")) with false by reflexivity.
    intros Hin. apply filter_In in Hin. destruct Hin as [_ Hm].
    unfold Admin.matches in Hm.
    destruct (Admin.user_alignment conv) as [[|x a]|]; discriminate.
Qed.

Lemma admin_universal_badge_not_in_universal_filter_witness :
  let es := [Admin.DataSettled (Fulfilled sample_stats)
               (Fulfilled [admin_row "c1" (Some bhakti_user);
                           admin_row "c2" None]);
             Admin.FilterChange (str "universal")] in
  let conv := admin_row "c2" None in
  let s := Admin.run es Admin.mount in
  (Admin.alignmentFilter s = str "universal"
   /\ truthy_opt (Admin.user_alignment conv) = false
   /\ In conv (Admin.conversations s))
  /\ Admin.badge_alignment conv = str "universal"
  /\ ~ In conv (Admin.filteredConversations s).
Proof.
  intros es conv s.
  split; [split; [reflexivity | split; [reflexivity | right; left; reflexivity]]|].
  apply (admin_universal_badge_not_in_universal_filter es conv); reflexivity.
Defined.

Lemma admin_settled_flags (s : Admin.AdminPage) (n : nat)
  (statsRes : Promise Admin.Stats)
  (convsRes : Promise (list Admin.Conversation)) :
  Admin.fetches s = S n ->
  Admin.isLoading (Admin.step (Admin.DataSettled statsRes convsRes) s) = false
  /\ Admin.fetches (Admin.step (Admin.DataSettled statsRes convsRes) s) = n.
Proof.
  intros Hn. cbn [Admin.step]. rewrite Hn.
  destruct statsRes as [st|e1], convsRes as [cs|e2];
    cbn [Admin.promise_all]; try (split; reflexivity).
  destruct (admin_filter_effect
              (Admin.fetchData_settled (Fulfilled (st, cs))
                 (Admin.set_fetches n s))) as (_ & _ & _ & _ & Hl & Hf).
  rewrite Hl, Hf. split; reflexivity.
Qed.

(** With two refreshes under way, the first response to arrive clears
    the loading flag although the other refresh is still awaited. *)
Theorem admin_loading_cleared_by_first_response
  (s : Admin.AdminPage) (statsRes : Promise Admin.Stats)
  (convsRes : Promise (list Admin.Conversation)) :
  let s' := Admin.run [Admin.Refresh; Admin.Refresh;
                       Admin.DataSettled statsRes convsRes] s in
  Admin.isLoading s' = false /\ Admin.fetches s' = S (Admin.fetches s).
Proof.
  cbv zeta.
  change (Admin.run [Admin.Refresh; Admin.Refresh;
                     Admin.DataSettled statsRes convsRes] s)
    with (Admin.step (Admin.DataSettled statsRes convsRes)
            (Admin.step Admin.Refresh (Admin.step Admin.Refresh s))).
  apply admin_settled_flags. reflexivity.
Qed.

(** * Properties of [OnboardingPage] and of the way into the chat *)

Ltac wizard_fields :=
  cbn [Onboarding.step Onboarding.loading Onboarding.formData
       Onboarding.toasts Onboarding.posts Onboarding.pocketGuruUserId
       Onboarding.location Onboarding.setStep Onboarding.setLoading
       Onboarding.setFormData Onboarding.toast Onboarding.set_posts
       Onboarding.setItem Onboarding.navigate
       Onboarding.name Onboarding.alignment Onboarding.preferred_deity
       Onboarding.primary_goal Onboarding.body_alignment
       Onboarding.body_preferred_deity Onboarding.body_primary_goal
       Onboarding.body_name
       Onboarding.handleAlignmentSelect Onboarding.handleDeitySelect
       Onboarding.handleGoalSelect Onboarding.handleNameChange].

Lemma has_id_truthy (table : list jsstring) (i : jsstring) :
  i = [] \/ Onboarding.has_id table i = true ->
  truthy i = true ->
  Onboarding.has_id table i = true.
Proof. intros [->|H] Ht; [discriminate Ht | exact H]. Qed.

Lemma or_null_not_empty (v : jsstring) : Onboarding.or_null v <> Some [].
Proof. unfold Onboarding.or_null. destruct v; discriminate. Qed.

Lemma wizard_inv_step (e : Onboarding.Event) (s : Onboarding.OnboardingPage) :
  Onboarding.wizard_inv s ->
  Onboarding.wizard_inv (Onboarding.step_event e s).
Proof.
  intros Hinv. unfold Onboarding.step_event.
  destruct (Onboarding.rendered e s) eqn:R; [|exact Hinv].
  destruct Hinv as (H1 & H2 & H3 & H4 & H5 & H6 & H7).
  unfold Onboarding.rendered in R.
  destruct e as [i|i|v|i| | | | |i r]; cbn [Onboarding.handle].
  - (* AlignmentSelect *)
    destruct (Onboarding.location s); try discriminate R.
    apply andb_true_iff in R. destruct R as [Rs Ri].
    apply Z.eqb_eq in Rs.
    unfold Onboarding.wizard_inv. wizard_fields.
    repeat split; auto; lia.
  - (* DeitySelect *)
    destruct (Onboarding.location s); try discriminate R.
    apply andb_true_iff in R. destruct R as [_ Ri].
    unfold Onboarding.wizard_inv. wizard_fields. repeat split; auto; lia.
  - (* NameChange *)
    unfold Onboarding.wizard_inv. wizard_fields. repeat split; auto; lia.
  - (* GoalSelect *)
    destruct (Onboarding.location s); try discriminate R.
    apply andb_true_iff in R. destruct R as [_ Ri].
    unfold Onboarding.wizard_inv. wizard_fields. repeat split; auto; lia.
  - (* Next *)
    destruct (Onboarding.location s); try discriminate R.
    apply Z.ltb_lt in R. unfold Onboarding.handleNext.
    destruct (Z.eqb (Onboarding.step s) 1) eqn:E1; cbn [andb].
    + destruct (truthy (Onboarding.alignment (Onboarding.formData s))) eqn:Ht;
        cbn [negb].
      * rewrite (proj2 (Z.ltb_lt _ _) R).
        unfold Onboarding.wizard_inv. wizard_fields.
        repeat split; auto using has_id_truthy; lia.
      * unfold Onboarding.wizard_inv. wizard_fields. repeat split; auto; lia.
    + apply Z.eqb_neq in E1. rewrite (proj2 (Z.ltb_lt _ _) R).
      unfold Onboarding.wizard_inv. wizard_fields.
      repeat split; auto; try lia; try (intros _; apply H3; lia).
  - (* Back *)
    destruct (Onboarding.location s); try discriminate R.
    unfold Onboarding.handleBack. rewrite R. apply Z.ltb_lt in R.
    unfold Onboarding.wizard_inv. wizard_fields.
    repeat split; auto; try lia; try (intros Hs; apply H3; lia).
  - (* Cancel *)
    unfold Onboarding.wizard_inv. wizard_fields. repeat split; auto; lia.
  - (* Complete *)
    destruct (Onboarding.location s); try discriminate R.
    apply andb_true_iff in R. destruct R as [Rs Rl].
    apply negb_true_iff in Rs, Rl. apply Z.ltb_ge in Rs.
    unfold Onboarding.handleComplete.
    destruct (truthy (Onboarding.primary_goal (Onboarding.formData s)))
      eqn:Hg; cbn [negb].
    + unfold Onboarding.wizard_inv. wizard_fields.
      rewrite Rl in H6. rewrite length_app, H6.
      repeat split; auto; try lia.
      apply Forall_app. split; [exact H7|]. constructor; [|constructor].
      unfold Onboarding.body_ok. wizard_fields. repeat split.
      * apply H3. lia.
      * apply has_id_truthy; assumption.
      * unfold Onboarding.or_null.
        destruct (truthy (Onboarding.preferred_deity (Onboarding.formData s)))
          eqn:Hd; [apply has_id_truthy; assumption | exact I].
      * apply or_null_not_empty.
    + unfold Onboarding.wizard_inv. wizard_fields. repeat split; auto; lia.
  - (* UserSettled *)
    destruct (nth_error (Onboarding.posts s) i) as [b|] eqn:E;
      [|unfold Onboarding.wizard_inv; repeat split; auto; lia].
    assert (Hrm : remove_nth i (Onboarding.posts s) = []).
    { destruct (Onboarding.loading s);
        destruct (Onboarding.posts s) as [|b0 [|b1 l]];
        try discriminate H6; destruct i as [|[|i]]; try discriminate E.
      reflexivity. }
    destruct r as [userId|err]; unfold Onboarding.handleComplete_settled;
      unfold Onboarding.wizard_inv; wizard_fields; rewrite Hrm;
      repeat split; auto; lia.
Qed.

Lemma wizard_inv_mount (stored : option jsstring) :
  Onboarding.wizard_inv (Onboarding.mount stored).
Proof.
  unfold Onboarding.wizard_inv, Onboarding.mount. wizard_fields.
  repeat split; auto; lia.
Qed.

Lemma wizard_inv_run (es : list Onboarding.Event)
  (s : Onboarding.OnboardingPage) :
  Onboarding.wizard_inv s -> Onboarding.wizard_inv (Onboarding.run es s).
Proof.
  revert s. induction es as [|e es IH]; intros s H; [exact H|].
  change (Onboarding.run (e :: es) s)
    with (Onboarding.run es (Onboarding.step_event e s)).
  apply IH, wizard_inv_step, H.
Qed.

(** In every state of the wizard reached through the controls on
    screen, the step is 1, 2 or 3. *)
Theorem onboarding_step_in_range
  (stored : option jsstring) (es : list Onboarding.Event) :
  (1 <= Onboarding.step (Onboarding.run es (Onboarding.mount stored)) <= 3)%Z.
Proof. apply (wizard_inv_run es _ (wizard_inv_mount stored)). Qed.

(** The wizard is never past its first step without a spiritual path
    chosen among the four offered. *)
Theorem onboarding_path_chosen_past_step_one
  (stored : option jsstring) (es : list Onboarding.Event) :
  let s := Onboarding.run es (Onboarding.mount stored) in
  (1 < Onboarding.step s)%Z ->
  Onboarding.has_id Onboarding.ALIGNMENTS
    (Onboarding.alignment (Onboarding.formData s)) = true.
Proof.
  intros s.
  destruct (wizard_inv_run es _ (wizard_inv_mount stored))
    as (_ & _ & H & _).
  exact H.
Qed.

Lemma onboarding_path_chosen_past_step_one_witness :
  let es := [Onboarding.Next; Onboarding.AlignmentSelect (str "bhakti");
             Onboarding.Next] in
  let s := Onboarding.run es (Onboarding.mount None) in
  (1 < Onboarding.step s)%Z
  /\ Onboarding.has_id Onboarding.ALIGNMENTS
       (Onboarding.alignment (Onboarding.formData s)) = true.
Proof.
  intros es s.
  assert (H : (1 < Onboarding.step s)%Z) by reflexivity.
  split; [exact H|].
  apply (onboarding_path_chosen_past_step_one None es H).
Defined.

(** Every request that creates a user carries one of the four paths and
    one of the five goals; its deity is one of the eight or [null], and
    its name is [null] rather than empty. *)
Theorem onboarding_request_is_complete
  (stored : option jsstring) (es : list Onboarding.Event)
  (b : Onboarding.UserBody) :
  In b (Onboarding.posts (Onboarding.run es (Onboarding.mount stored))) ->
  Onboarding.has_id Onboarding.ALIGNMENTS (Onboarding.body_alignment b) = true
  /\ Onboarding.has_id Onboarding.GOALS (Onboarding.body_primary_goal b) = true
  /\ match Onboarding.body_preferred_deity b with
     | Some d => Onboarding.has_id Onboarding.DEITIES d = true
     | None => True
     end
  /\ Onboarding.body_name b <> Some [].
Proof.
  intros Hin.
  destruct (wizard_inv_run es _ (wizard_inv_mount stored))
    as (_ & _ & _ & _ & _ & _ & H).
  rewrite Forall_forall in H. exact (H b Hin).
Qed.

Lemma onboarding_request_is_complete_witness :
  let es := [Onboarding.AlignmentSelect (str "bhakti"); Onboarding.Next;
             Onboarding.Next; Onboarding.GoalSelect (str "peace");
             Onboarding.Complete] in
  let b := {| Onboarding.body_alignment := str "bhakti";
              Onboarding.body_preferred_deity := None;
              Onboarding.body_primary_goal := str "peace";
              Onboarding.body_name := None |} in
  In b (Onboarding.posts (Onboarding.run es (Onboarding.mount None)))
  /\ Onboarding.has_id Onboarding.ALIGNMENTS (Onboarding.body_alignment b)
     = true
  /\ Onboarding.has_id Onboarding.GOALS (Onboarding.body_primary_goal b) = true
  /\ match Onboarding.body_preferred_deity b with
     | Some d => Onboarding.has_id Onboarding.DEITIES d = true
     | None => True
     end
  /\ Onboarding.body_name b <> Some [].
Proof.
  intros es b.
  assert (Hin : In b (Onboarding.posts
                        (Onboarding.run es (Onboarding.mount None))))
    by (left; reflexivity).
  split; [exact Hin|].
  apply (onboarding_request_is_complete None es b Hin).
Defined.

(** At most one creation request is awaited, and one is awaited exactly
    while [loading] holds: the button that issues it is disabled
    meanwhile. *)
Theorem onboarding_one_request
  (stored : option jsstring) (es : list Onboarding.Event) :
  let s := Onboarding.run es (Onboarding.mount stored) in
  length (Onboarding.posts s) = (if Onboarding.loading s then 1 else 0).
Proof.
  intros s.
  destruct (wizard_inv_run es _ (wizard_inv_mount stored))
    as (_ & _ & _ & _ & _ & H & _).
  exact H.
Qed.

(** "Next" then "Back" brings the wizard back to the state it was in,
    from step 2 and, once a path is chosen, from step 1; without a path
    "Next" on step 1 only shows a notification, and "Next" on step 3 and
    "Back" on step 1 do nothing. *)
Theorem onboarding_next_back (s : Onboarding.OnboardingPage) :
  ((Onboarding.step s = 2%Z
    \/ (Onboarding.step s = 1%Z
        /\ truthy (Onboarding.alignment (Onboarding.formData s)) = true)) ->
   Onboarding.handleBack (Onboarding.handleNext s) = s)
  /\ (Onboarding.step s = 1%Z ->
      truthy (Onboarding.alignment (Onboarding.formData s)) = false ->
      Onboarding.handleNext s
      = Onboarding.toast
          (toast_error (str "Please select your spiritual path")) s)
  /\ (Onboarding.step s = 3%Z -> Onboarding.handleNext s = s)
  /\ (Onboarding.step s = 1%Z -> Onboarding.handleBack s = s).
Proof.
  unfold Onboarding.handleNext, Onboarding.handleBack.
  destruct s as [st ld fd ts ps uid loc]. wizard_fields.
  repeat split.
  - intros [->|[-> ->]]; reflexivity.
  - intros -> ->. reflexivity.
  - intros ->. reflexivity.
  - intros ->. reflexivity.
Qed.

Lemma onboarding_next_back_witness :
  let s := Onboarding.run [Onboarding.AlignmentSelect (str "karma")]
             (Onboarding.mount None) in
  let s0 := Onboarding.mount None in
  let s3 := Onboarding.run [Onboarding.AlignmentSelect (str "karma");
                            Onboarding.Next; Onboarding.Next]
              (Onboarding.mount None) in
  (Onboarding.step s = 1%Z
   /\ truthy (Onboarding.alignment (Onboarding.formData s)) = true
   /\ truthy (Onboarding.alignment (Onboarding.formData s0)) = false
   /\ Onboarding.step s3 = 3%Z)
  /\ Onboarding.handleBack (Onboarding.handleNext s) = s
  /\ Onboarding.handleNext s0
     = Onboarding.toast
         (toast_error (str "Please select your spiritual path")) s0
  /\ Onboarding.handleNext s3 = s3
  /\ Onboarding.handleBack s = s.
Proof.
  intros s s0 s3. split; [repeat split|].
  split; [|split; [|split]].
  - destruct (onboarding_next_back s) as (H & _).
    apply H. right. split; reflexivity.
  - destruct (onboarding_next_back s0) as (_ & H & _).
    apply H; reflexivity.
  - destruct (onboarding_next_back s3) as (_ & _ & H & _).
    apply H. reflexivity.
  - destruct (onboarding_next_back s) as (_ & _ & _ & H).
    apply H. reflexivity.
Defined.

(** A creation request that is rejected leaves the wizard where it was,
    with the form as filled in: an error notification is shown, nothing is
    stored, the page is not left, and the "Begin Journey" button is
    enabled again. *)
Theorem onboarding_failure_keeps_form
  (stored : option jsstring) (es : list Onboarding.Event) (b : Onboarding.UserBody)
  (err : jsstring) :
  let s := Onboarding.run es (Onboarding.mount stored) in
  nth_error (Onboarding.posts s) 0 = Some b ->
  Onboarding.location s = path_onboarding ->
  let s' := Onboarding.step_event (Onboarding.UserSettled 0 (Rejected err)) s in
  Onboarding.formData s' = Onboarding.formData s
  /\ Onboarding.step s' = Onboarding.step s
  /\ Onboarding.pocketGuruUserId s' = Onboarding.pocketGuruUserId s
  /\ Onboarding.location s' = path_onboarding
  /\ Onboarding.loading s' = false
  /\ Onboarding.posts s' = []
  /\ Onboarding.toasts s'
     = Onboarding.toasts s
       ++ [toast_error (str "Something went wrong. Please try again.")]
  /\ (Onboarding.step s = 3%Z ->
      Onboarding.rendered Onboarding.Complete s' = true).
Proof.
  intros s Hb Hloc s'.
  destruct (wizard_inv_run es _ (wizard_inv_mount stored))
    as (_ & _ & _ & _ & _ & Hn & _).
  fold s in Hn.
  assert (Hp : Onboarding.posts s = [b]).
  { destruct (Onboarding.loading s);
      destruct (Onboarding.posts s) as [|b0 [|b1 l]]; try discriminate Hn;
      try discriminate Hb. cbn in Hb. congruence. }
  unfold s', Onboarding.step_event.
  cbn [Onboarding.rendered Onboarding.handle]. rewrite Hb.
  unfold Onboarding.handleComplete_settled. wizard_fields.
  rewrite Hp. repeat split; auto.
  intros H3. unfold Onboarding.rendered. wizard_fields.
  rewrite Hloc, H3. reflexivity.
Qed.

Lemma onboarding_failure_keeps_form_witness :
  let es := [Onboarding.AlignmentSelect (str "bhakti"); Onboarding.Next;
             Onboarding.NameChange (str "Meera"); Onboarding.Next;
             Onboarding.GoalSelect (str "peace"); Onboarding.Complete] in
  let b := {| Onboarding.body_alignment := str "bhakti";
              Onboarding.body_preferred_deity := None;
              Onboarding.body_primary_goal := str "peace";
              Onboarding.body_name := Some (str "Meera") |} in
  let err := str "Network Error" in
  let s := Onboarding.run es (Onboarding.mount None) in
  let s' := Onboarding.step_event (Onboarding.UserSettled 0 (Rejected err)) s in
  (nth_error (Onboarding.posts s) 0 = Some b
   /\ Onboarding.location s = path_onboarding
   /\ Onboarding.step s = 3%Z)
  /\ Onboarding.formData s' = Onboarding.formData s
  /\ Onboarding.step s' = Onboarding.step s
  /\ Onboarding.pocketGuruUserId s' = Onboarding.pocketGuruUserId s
  /\ Onboarding.location s' = path_onboarding
  /\ Onboarding.loading s' = false
  /\ Onboarding.posts s' = []
  /\ Onboarding.toasts s'
     = Onboarding.toasts s
       ++ [toast_error (str "Something went wrong. Please try again.")]
  /\ (Onboarding.step s = 3%Z ->
      Onboarding.rendered Onboarding.Complete s' = true).
Proof.
  intros es b err s s'. split; [repeat split|].
  apply (onboarding_failure_keeps_form None es b err); reflexivity.
Defined.

(** "Begin Journey" without a goal chosen issues no request: it only
    shows a notification. *)
Theorem onboarding_goal_required (s : Onboarding.OnboardingPage) :
  truthy (Onboarding.primary_goal (Onboarding.formData s)) = false ->
  Onboarding.handleComplete s
  = Onboarding.toast (toast_error (str "Please select your primary goal")) s.
Proof.
  intros H. unfold Onboarding.handleComplete. rewrite H. reflexivity.
Qed.

(** ** From the welcome page and the wizard into the chat *)

(** "Get Started" goes to the chat exactly when the chat page keeps the
    visitor: with a user id in local storage that is not empty; otherwise
    it goes to the wizard, where the chat page would send the visitor
    too. *)
Theorem get_started_agrees_with_chat_guard
  (r : Router) (userId : option jsstring) (param : option jsstring) :
  (Welcome.handleGetStarted userId = path_chat
   <-> enter_chat r param userId <> None)
  /\ (Welcome.handleGetStarted userId = path_onboarding
      <-> enter_chat r param userId = None).
Proof.
  unfold Welcome.handleGetStarted, enter_chat.
  destruct userId as [[|x u]|]; cbn [truthy_opt truthy];
    (split; split; intros H; try discriminate; try reflexivity;
     try (exfalso; apply H; reflexivity)).
Qed.

(** A creation request that is fulfilled with a user id, the wizard
    being still on screen, stores the id, shows the welcome and goes to
    the chat; the chat page then mounts for that user: its [userId] is the
    id the server gave, its requests are the one for that user's profile
    and the one for that user's sidebar list, none for a history, and it
    starts on a draft with an empty transcript.  With an empty id the chat
    page sends the visitor back to the wizard. *)
Theorem onboarding_success_enters_chat
  (r : Router) (stored : option jsstring) (es : list Onboarding.Event)
  (b : Onboarding.UserBody) (newId : jsstring) :
  let s := Onboarding.run es (Onboarding.mount stored) in
  nth_error (Onboarding.posts s) 0 = Some b ->
  Onboarding.location s = path_onboarding ->
  let s' := Onboarding.step_event
              (Onboarding.UserSettled 0 (Fulfilled newId)) s in
  Onboarding.pocketGuruUserId s' = Some newId
  /\ Onboarding.location s' = path_chat
  /\ Onboarding.toasts s'
     = Onboarding.toasts s ++ [toast_success Onboarding.welcome_text]
  /\ (truthy newId = true ->
      exists chat, enter_chat r None (Onboarding.pocketGuruUserId s')
                   = Some chat
                   /\ userId chat = Some newId
                   /\ user_gets chat = [newId]
                   /\ conversations_gets chat = [Some newId]
                   /\ conversation_gets chat = []
                   /\ chat_posts chat = []
                   /\ conversation_deletes chat = []
                   /\ currentConversationId chat = None
                   /\ messages chat = [])
  /\ (newId = [] ->
      enter_chat r None (Onboarding.pocketGuruUserId s') = None).
Proof.
  intros s Hb _ s'.
  assert (E : s' = Onboarding.handleComplete_settled (Fulfilled newId)
                     (Onboarding.set_posts
                        (remove_nth 0 (Onboarding.posts s)) s)).
  { unfold s', Onboarding.step_event.
    cbn [Onboarding.rendered Onboarding.handle]. rewrite Hb. reflexivity. }
  rewrite E. unfold Onboarding.handleComplete_settled. wizard_fields.
  repeat split.
  - intros Ht. exists (mount r None newId). unfold enter_chat. rewrite Ht.
    destruct (mount_cells r None newId) as (C1 & C2 & C3 & _ & _ & C6 & _).
    destruct (mount_requests r None newId Ht) as (R1 & R2 & R3 & _ & R5).
    cbv zeta in *. cbn [truthy_opt] in C6. tauto.
  - intros ->. reflexivity.
Qed.

Lemma onboarding_success_enters_chat_witness :
  let es := [Onboarding.AlignmentSelect (str "bhakti"); Onboarding.Next;
             Onboarding.Next; Onboarding.GoalSelect (str "peace");
             Onboarding.Complete] in
  let b := {| Onboarding.body_alignment := str "bhakti";
              Onboarding.body_preferred_deity := None;
              Onboarding.body_primary_goal := str "peace";
              Onboarding.body_name := None |} in
  let s := Onboarding.run es (Onboarding.mount None) in
  let s' := Onboarding.step_event
              (Onboarding.UserSettled 0 (Fulfilled (str "u1"))) s in
  (nth_error (Onboarding.posts s) 0 = Some b
   /\ Onboarding.location s = path_onboarding)
  /\ Onboarding.pocketGuruUserId s' = Some (str "u1")
  /\ Onboarding.location s' = path_chat
  /\ enter_chat (router_at "/chat") None (Onboarding.pocketGuruUserId s')
     = Some fresh
  /\ user_gets fresh = [str "u1"]
  /\ conversations_gets fresh = [Some (str "u1")].
Proof.
  intros es b s s'.
  assert (Hb : nth_error (Onboarding.posts s) 0 = Some b) by reflexivity.
  assert (Hl : Onboarding.location s = path_onboarding) by reflexivity.
  destruct (onboarding_success_enters_chat (router_at "/chat") None es b
              (str "u1") Hb Hl)
    as (H1 & H2 & _).
  split; [split; assumption|].
  split; [exact H1|]. split; [exact H2|].
  repeat split; vm_compute; reflexivity.
Defined.

Lemma get_started_agrees_with_chat_guard_witness :
  Welcome.handleGetStarted (Some (str "u1")) = path_chat
  /\ enter_chat (router_at "/chat") None (Some (str "u1")) <> None
  /\ Welcome.handleGetStarted None = path_onboarding
  /\ enter_chat (router_at "/chat/A") (Some (str "A")) None = None.
Proof.
  destruct (get_started_agrees_with_chat_guard (router_at "/chat")
              (Some (str "u1")) None)
    as [[H1 _] _].
  destruct (get_started_agrees_with_chat_guard (router_at "/chat/A")
              None (Some (str "A")))
    as [_ [H2 _]].
  split; [reflexivity|]. split; [apply H1; reflexivity|].
  split; [reflexivity|]. apply H2. reflexivity.
Defined.
